(** * santasearch: query construction, session set-up and dispatch

    A shallow embedding of [scripts/santasearch.py]: the three query
    builders ([nuclei_bldq], [nmap_bldq], [httpx_bldq]), the index
    enumerator ([get_indexes]), the session manager ([init_ESsession]) and
    the dispatcher ([init_sc]). [main], which parses the command line,
    calls [init_sc] and prints what it returns, is not modelled: the parsed
    command line is the input here.

    Conventions.
    - A Python [str] is a [string] holding its UTF-8 bytes, so [+] is
      concatenation, [.encode()] is the identity on the bytes and
      [startswith('.')] looks at the first byte.
    - A Python [int] is a [Z] (unbounded, as in Python).
    - [None]-or-[str] arguments ([args.addr], the configured user name and
      password) are [option string].
    - Dictionaries built by the script keep their insertion order and are
      association lists; header dictionaries and the option bag, which are
      only ever looked up by key, are [gmap]s. *)

From Stdlib Require Import ZArith Ascii String DecimalString.
From stdpp Require Import base option list strings gmap fin_maps.

Local Open Scope string_scope.
Local Open Scope Z_scope.
Local Open Scope list_scope.
Set Warnings "-register-all".

(** ** Python values, exceptions and outcomes *)

Module Py.

(** The values that occur in a query document and in a decoded JSON
    reply. A float keeps its literal: no function of the script computes
    with one. *)
Inductive value : Type :=
| VNone
| VBool (b : bool)
| VInt (n : Z)
| VFloat (lit : string)
| VStr (s : string)
| VList (items : list value)
| VDict (items : list (string * value)).

(** The exceptions the modelled code can raise. *)
Inductive exn : Type :=
| TypeError
| KeyError
| AttributeError
| JSONDecodeError
| ConnectionError.

(** How a call ends: a value, [sys.exit(code)], or an uncaught
    exception. *)
Inductive outcome (A : Type) : Type :=
| Ret (a : A)
| Exit (code : Z)
| Raise (e : exn).
Arguments Ret {A} a.
Arguments Exit {A} code.
Arguments Raise {A} e.

Definition obind {A B} (o : outcome A) (k : A -> outcome B) : outcome B :=
  match o with
  | Ret a => k a
  | Exit c => Exit c
  | Raise e => Raise e
  end.

(** [if s:] for a [None]-or-[str] value. *)
Definition truthy (o : option string) : bool :=
  match o with
  | Some (String _ _) => true
  | _ => false
  end.

(** A [None]-or-[str] as a value. *)
Definition opt_value (o : option string) : value :=
  match o with
  | Some s => VStr s
  | None => VNone
  end.

(** [str(n)] and [f"{n}"] for an [int]. *)
Definition str_int (n : Z) : string := NilZero.string_of_int (Z.to_int n).

(** [d[k]] on the items of a dictionary. *)
Fixpoint dict_get {V : Type} (k : string) (items : list (string * V)) : option V :=
  match items with
  | [] => None
  | (k', v) :: rest => if String.eqb k k' then Some v else dict_get k rest
  end.

(** [d[k] = v] on the items of a dictionary: an existing key keeps its
    position, a new key goes last. *)
Fixpoint dict_set {V : Type} (k : string) (v : V) (items : list (string * V))
  : list (string * V) :=
  match items with
  | [] => [(k, v)]
  | (k', v') :: rest =>
      if String.eqb k k' then (k, v) :: rest else (k', v') :: dict_set k v rest
  end.

(** [x[k]] with a string subscript [k]. *)
Definition getitem (x : value) (k : string) : outcome value :=
  match x with
  | VDict items =>
      match dict_get k items with
      | Some v => Ret v
      | None => Raise KeyError
      end
  | _ => Raise TypeError
  end.

(** [x[k1][k2]...[kn]]. *)
Fixpoint getpath (x : value) (path : list string) : outcome value :=
  match path with
  | [] => Ret x
  | k :: path' => obind (getitem x k) (fun y => getpath y path')
  end.

(** [x[k1]...[kn].append(y)]: the list reached through the subscripts is
    extended in place, so the change shows in [x]. *)
Fixpoint append_at (x : value) (path : list string) (y : value) : outcome value :=
  match path with
  | [] =>
      match x with
      | VList items => Ret (VList (items ++ [y]))
      | _ => Raise AttributeError
      end
  | k :: path' =>
      match x with
      | VDict items =>
          match dict_get k items with
          | Some sub =>
              obind (append_at sub path' y)
                    (fun sub' => Ret (VDict (dict_set k sub' items)))
          | None => Raise KeyError
          end
      | _ => Raise TypeError
      end
  end.

(** [x[k] = v] on a dictionary value. *)
Definition setitem (x : value) (k : string) (v : value) : outcome value :=
  match x with
  | VDict items => Ret (VDict (dict_set k v items))
  | _ => Raise TypeError
  end.

End Py.
Import Py.

Notation "x <~ c1 ;; c2" := (obind c1 (fun x => c2))
  (at level 100, c1 at next level, right associativity).

(** ** Query builders *)

Section Builders.

Variables (es_host : string) (ip_addr : option string)
          (stime etime : string) (slimit : Z).

Definition nuclei_bldq : outcome value :=
  let _dict := VDict [] in
  _dict <~ setitem _dict "_uri"
             (VStr (es_host +:+ "/nuclei/_search?filter_path=hits.hits._source")) ;;
  _dict <~ setitem _dict "_search"
    (VDict
       [("query", VDict
          [("bool", VDict
             [("must", VList []);
              ("filter", VList
                 [VDict [("range", VDict
                    [("@timestamp", VDict [("gte", VStr stime);
                                           ("lte", VStr etime)])])]])])]);
        ("_source", VDict
          [("includes", VList
             [VStr "@timestamp"; VStr "event.ip"; VStr "event.info.severity";
              VStr "event.info.name"; VStr "event.matched-at";
              VStr "event.template-id";
              VStr "event.info.classification.cvss-score";
              VStr "event.info.description"])]);
        ("size", VInt slimit)]) ;;
  if truthy ip_addr then
    let match_ip := VDict [("match", VDict [("event.ip", opt_value ip_addr)])] in
    append_at _dict ["_search"; "query"; "bool"; "must"] match_ip
  else Ret _dict.

Definition nmap_bldq : outcome value :=
  let _dict := VDict [] in
  _dict <~ setitem _dict "_uri"
             (VStr (es_host +:+ "/nmap/_search?filter_path=hits.hits._source")) ;;
  _dict <~ setitem _dict "_search"
    (VDict
       [("query", VDict
          [("bool", VDict
             [("must", VList []);
              ("filter", VList
                 [VDict [("range", VDict
                    [("time", VDict [("gte", VStr stime);
                                     ("lte", VStr etime)])])]])])]);
        ("_source", VDict
          [("includes", VList
             [VStr "time"; VStr "ip"; VStr "port"; VStr "protocol";
              VStr "script"; VStr "script_output"])]);
        ("size", VInt slimit)]) ;;
  if truthy ip_addr then
    let match_ip := VDict [("match", VDict [("ip", opt_value ip_addr)])] in
    append_at _dict ["_search"; "query"; "bool"; "must"] match_ip
  else Ret _dict.

Definition httpx_bldq : outcome value :=
  let _dict := VDict [] in
  _dict <~ setitem _dict "_uri"
             (VStr (es_host +:+ "/nmap/_search?filter_path=hits.hits._source")) ;;
  _dict <~ setitem _dict "_search"
    (VDict
       [("query", VDict
          [("bool", VDict
             [("must", VList [VDict [("match", VDict [("script", VStr "httpx")])]]);
              ("filter", VList
                 [VDict [("exists", VDict [("field", VStr "script_output")])];
                  VDict [("range", VDict
                    [("time", VDict [("gte", VStr stime);
                                     ("lte", VStr etime)])])]])])]);
        ("_source", VDict
          [("includes", VList
             [VStr "time"; VStr "script"; VStr "script_output"])]);
        ("size", VInt slimit)]) ;;
  if truthy ip_addr then
    let match_ip := VDict [("match", VDict [("ip", opt_value ip_addr)])] in
    append_at _dict ["_search"; "query"; "bool"; "must"] match_ip
  else Ret _dict.

End Builders.

(** ** Effects: console output, HTTP requests, process exit *)

(** [requests.Session]: only its default headers matter here. The script
    looks headers up and sets them under one spelling of each name, so the
    case-insensitive dictionary of [requests] is a map on the names as
    written. *)
Record Session : Type := { headers : gmap string string }.

(** [session.headers.update(d)]. *)
Definition headers_update (s : Session) (d : gmap string string) : Session :=
  {| headers := d ∪ headers s |}.

(** One [session.get(url, headers=..., verify=...)]. *)
Record request : Type :=
  { req_url : string; req_headers : gmap string string; req_verify : bool }.

(** What the script reads from a reply: [r.status_code] and [r.text]. *)
Record response : Type := { status_code : Z; text : string }.

(** What a run does that can be seen from outside, oldest first. *)
Inductive event : Type :=
| EvPrint (line : string)
| EvGet (rq : request).

(** A computation takes the events so far and returns an outcome with the
    events extended. *)
Definition M (A : Type) : Type := list event -> outcome A * list event.

Definition mret {A} (a : A) : M A := fun tr => (Ret a, tr).

Definition mbind {A B} (c : M A) (k : A -> M B) : M B :=
  fun tr =>
    match c tr with
    | (Ret a, tr') => k a tr'
    | (Exit code, tr') => (Exit code, tr')
    | (Raise e, tr') => (Raise e, tr')
    end.

Notation "x <- c1 ;; c2" := (mbind c1 (fun x => c2))
  (at level 100, c1 at next level, right associativity).
Notation "c1 ;;; c2" := (mbind c1 (fun _ => c2))
  (at level 100, right associativity).

(** [print(line)]. *)
Definition print (line : string) : M unit := fun tr => (Ret tt, tr ++ [EvPrint line]).

(** [sys.exit(code)]: [SystemExit] is caught nowhere in the script. *)
Definition sys_exit {A} (code : Z) : M A := fun tr => (Exit code, tr).

(** A pure step that may raise. *)
Definition lift {A} (o : outcome A) : M A := fun tr => (o, tr).

(** The [base64] alphabet of RFC 4648. *)
Definition b64_alphabet : string :=
  "ABCDEFGHIJKLMNOPQRSTUVWXYZabcdefghijklmnopqrstuvwxyz0123456789+/".

Definition b64_digit (n : N) : ascii :=
  match String.get (N.to_nat (N.land n 63)) b64_alphabet with
  | Some c => c
  | None => "="%char
  end.

(** [base64.b64encode(bs).decode()]: three bytes give four digits, a last
    group of one or two bytes is padded with [=]. *)
Fixpoint b64encode (bs : string) : string :=
  match bs with
  | EmptyString => ""
  | String a EmptyString =>
      let n := N.shiftl (N_of_ascii a) 16 in
      String (b64_digit (N.shiftr n 18)) (String (b64_digit (N.shiftr n 12)) "==")
  | String a (String b EmptyString) =>
      let n := N.lor (N.shiftl (N_of_ascii a) 16) (N.shiftl (N_of_ascii b) 8) in
      String (b64_digit (N.shiftr n 18)) (String (b64_digit (N.shiftr n 12))
        (String (b64_digit (N.shiftr n 6)) "="))
  | String a (String b (String c rest)) =>
      let n := N.lor (N.lor (N.shiftl (N_of_ascii a) 16) (N.shiftl (N_of_ascii b) 8))
                     (N_of_ascii c) in
      String (b64_digit (N.shiftr n 18)) (String (b64_digit (N.shiftr n 12))
        (String (b64_digit (N.shiftr n 6)) (String (b64_digit n) (b64encode rest))))
  end.

(** [s + t] where each of [s] and [t] is [None] or a [str]. *)
Definition str_add (s t : option string) : outcome string :=
  match s, t with
  | Some s', Some t' => Ret (s' +:+ t')
  | _, _ => Raise TypeError
  end.

(** [x.startswith(p)]: only a [str] has the method. *)
Definition startswith (x : value) (p : string) : outcome bool :=
  match x with
  | VStr s => Ret (String.prefix p s)
  | _ => Raise AttributeError
  end.

(** The elements a [for] loop over [x] visits. A [dict] yields its keys and
    a [str] its characters (here: its bytes; [get_indexes] fails on the
    first of them either way). *)
Definition iterate (x : value) : outcome (list value) :=
  match x with
  | VList items => Ret items
  | VDict items => Ret (map (fun kv => VStr (fst kv)) items)
  | VStr s => Ret (map (fun c => VStr (String c EmptyString)) (list_ascii_of_string s))
  | _ => Raise TypeError
  end.

(** The loop of [get_indexes] over the decoded entries, with the list built
    so far. *)
Fixpoint index_loop (entries : list value) (index_arr : list string)
  : outcome (list string) :=
  match entries with
  | [] => Ret index_arr
  | idx :: rest =>
      name <~ getitem idx "index" ;;
      dotted <~ startswith name "." ;;
      match name with
      | VStr n => index_loop rest (if negb dotted then index_arr ++ [n] else index_arr)
      | _ => Raise AttributeError
      end
  end.

(** ** Configuration, arguments and the option bag *)

(** The [elasticsearch] block of the parsed configuration file. *)
Record ESConf : Type :=
  { es_ssl : bool;
    es_ip : string;
    es_port : Z;
    es_username : option string;
    es_password : option string }.

(** The parsed configuration: [yaml.safe_load] is outside the script. *)
Record Conf : Type :=
  { elasticsearch : ESConf;
    tool_list : list string }.

(** The parsed command line. [arg_config] is the configuration read from
    the file [args.config] and [arg_config_name] is that file's name. *)
Record Args : Type :=
  { arg_config : Conf;
    arg_config_name : string;
    arg_addr : option string;
    arg_start : string;
    arg_end : string;
    arg_limit : Z;
    arg_output : string;
    arg_tool : string;
    arg_verbose : bool }.

(** What the option bag [opts] holds under a key: a plain value or the
    session. *)
Inductive optval : Type :=
| OVal (v : value)
| OSession (s : Session).

(** The one-character string holding a double quote. *)
Definition dquote : string := String (ascii_of_nat 34) EmptyString.

Section Backend.

(** The backend: the reply to a request, or none when the transport
    fails and [requests] raises. *)
Variable backend : request -> option response.

(** [json.loads], which is not part of the script: [None] when the text
    is not JSON. *)
Variable json_loads : string -> option value.

(** The headers a fresh [requests.Session()] starts with. *)
Variable default_headers : gmap string string.

(** [session.get(url, headers=hdrs, verify=vfy)]. *)
Definition session_get (url : string) (hdrs : gmap string string) (vfy : bool)
  : M response :=
  fun tr =>
    let rq := {| req_url := url; req_headers := hdrs; req_verify := vfy |} in
    match backend rq with
    | Some r => (Ret r, tr ++ [EvGet rq])
    | None => (Raise ConnectionError, tr ++ [EvGet rq])
    end.

Definition get_indexes (es_session : Session) (es_host : string) (verbose : bool)
  : M (list string) :=
  let index_URI := es_host +:+ "/_cat/indices?h=index&format=json" in
  let index_arr := [] in
  r <- session_get index_URI (headers es_session) false ;;
  if negb (status_code r =? 200) then
    print ("[ERROR]: Connection failed, got " +:+ str_int (status_code r)
           +:+ " response!") ;;;
    sys_exit (-1)
  else
    idx_json <- lift (match json_loads (text r) with
                      | Some v => Ret v
                      | None => Raise JSONDecodeError
                      end) ;;
    entries <- lift (iterate idx_json) ;;
    lift (index_loop entries index_arr).

Definition init_ESsession (user passwd : option string) (api_URL : string)
           (verbose : bool) : M Session :=
  (if verbose then print ("[INFO]: Connecting to Elasticsearch: " +:+ api_URL)
   else mret tt) ;;;
  let session := {| headers := default_headers |} in
  let ctype_header := {[ "Content-Type" := "application/json" ]} in
  let session := headers_update session ctype_header in
  session <- (if truthy user then
                userpass <- lift (user_colon <~ str_add user (Some ":") ;;
                                  str_add (Some user_colon) passwd) ;;
                let encoded_u := b64encode userpass in
                let auth_header := {[ "Authorization" := "Basic " +:+ encoded_u ]} in
                mret (headers_update session auth_header)
              else mret session) ;;
  r <- session_get api_URL (headers session) false ;;
  if negb (status_code r =? 200) then
    print ("[ERROR]: Connection failed, got " +:+ str_int (status_code r)
           +:+ " response!") ;;;
    sys_exit (-1)
  else mret session.

(** The loop of [init_sc] over the configured tools, with the option bag
    built so far. A name other than the three known ones adds nothing. *)
Fixpoint build_queries (tools : list string) (es_host : string) (args : Args)
         (opts : gmap string optval) : outcome (gmap string optval) :=
  match tools with
  | [] => Ret opts
  | tool :: rest =>
      opts <~ (if String.eqb tool "nmap" then
                 q <~ nmap_bldq es_host (arg_addr args) (arg_start args)
                                (arg_end args) (arg_limit args) ;;
                 Ret (<[ "nmap" := OVal q ]> opts)
               else if String.eqb tool "httpx" then
                 q <~ httpx_bldq es_host (arg_addr args) (arg_start args)
                                 (arg_end args) (arg_limit args) ;;
                 Ret (<[ "httpx" := OVal q ]> opts)
               else if String.eqb tool "nuclei" then
                 q <~ nuclei_bldq es_host (arg_addr args) (arg_start args)
                                  (arg_end args) (arg_limit args) ;;
                 Ret (<[ "nuclei" := OVal q ]> opts)
               else Ret opts) ;;
      build_queries rest es_host args opts
  end.

Definition init_sc (args : Args) : M (gmap string optval) :=
  let opts : gmap string optval := ∅ in
  let opts := <[ "verbose" := OVal (VBool (arg_verbose args)) ]> opts in
  let conf := arg_config args in
  let es_host :=
    if es_ssl (elasticsearch conf) then "https://" +:+ es_ip (elasticsearch conf)
    else "http://" +:+ es_ip (elasticsearch conf) in
  let es_host := es_host +:+ (":" +:+ str_int (es_port (elasticsearch conf))) in
  let opts := <[ "es_host" := OVal (VStr es_host) ]> opts in
  let es_user := es_username (elasticsearch conf) in
  let opts := <[ "es_user" := OVal (opt_value es_user) ]> opts in
  let es_pass := es_password (elasticsearch conf) in
  let opts := <[ "es_pass" := OVal (opt_value es_pass) ]> opts in
  es_session <- init_ESsession es_user es_pass es_host (arg_verbose args) ;;
  let opts := <[ "es_session" := OSession es_session ]> opts in
  (if negb (String.eqb (arg_tool args) "all") then
     if negb (bool_decide (arg_tool args ∈ tool_list conf)) then
       print ("[ERROR]: Unknown tool: " +:+ dquote +:+ arg_tool args +:+ dquote
              +:+ ", check " +:+ arg_config_name args) ;;;
       sys_exit (-1)
     else mret tt
   else mret tt) ;;;
  let opts := <[ "tool" := OVal (VStr (arg_tool args)) ]> opts in
  let opts := <[ "tool_list" := OVal (VList (map VStr (tool_list conf))) ]> opts in
  opts <- lift (build_queries (tool_list conf) es_host args opts) ;;
  let opts := <[ "oformat" := OVal (VStr (arg_output args)) ]> opts in
  mret opts.

End Backend.

(** ** Vocabulary of the statements *)

(** The three tools that have a builder. *)
Inductive tool : Type := Nmap | Httpx | Nuclei.

(** The name [init_sc] compares a configured tool with. *)
Definition tool_name (t : tool) : string :=
  match t with
  | Nmap => "nmap"
  | Httpx => "httpx"
  | Nuclei => "nuclei"
  end.

(** The builder [init_sc] calls for a tool. *)
Definition bldq (t : tool) : string -> option string -> string -> string -> Z -> outcome value :=
  match t with
  | Nmap => nmap_bldq
  | Httpx => httpx_bldq
  | Nuclei => nuclei_bldq
  end.

(** The field a tool's documents keep their time stamp in. *)
Definition timestamp_field (t : tool) : string :=
  match t with
  | Nuclei => "@timestamp"
  | Nmap | Httpx => "time"
  end.

(** The field a tool's documents keep the scanned address in. *)
Definition address_field (t : tool) : string :=
  match t with
  | Nuclei => "event.ip"
  | Nmap | Httpx => "ip"
  end.

Definition match_clause (field : string) (v : value) : value :=
  VDict [("match", VDict [(field, v)])].

(** A clause with a [range] key. *)
Definition is_range_clause (clause : value) : bool :=
  match clause with
  | VDict items =>
      match dict_get "range" items with
      | Some _ => true
      | None => false
      end
  | _ => false
  end.

(** A clause whose [match] part constrains [field]. *)
Definition is_match_on (field : string) (clause : value) : bool :=
  match clause with
  | VDict items =>
      match dict_get "match" items with
      | Some (VDict conds) =>
          match dict_get field conds with
          | Some _ => true
          | None => false
          end
      | _ => false
      end
  | _ => false
  end.

(** The [must] array a builder starts from. *)
Definition fixed_must (t : tool) : list value :=
  match t with
  | Httpx => [match_clause "script" (VStr "httpx")]
  | Nmap | Nuclei => []
  end.

Definition filter_path : list string := ["_search"; "query"; "bool"; "filter"].
Definition must_path : list string := ["_search"; "query"; "bool"; "must"].

(** The tool a configured name selects in [init_sc], if any. *)
Definition known_tool (name : string) : option tool :=
  if String.eqb name "nmap" then Some Nmap
  else if String.eqb name "httpx" then Some Httpx
  else if String.eqb name "nuclei" then Some Nuclei
  else None.

(** The backend address [init_sc] derives from the configuration:
    scheme, host, port. *)
Definition base_url (conf : Conf) : string :=
  (if es_ssl (elasticsearch conf) then "https://" else "http://")
  +:+ es_ip (elasticsearch conf) +:+ ":" +:+ str_int (es_port (elasticsearch conf)).

(** The [Authorization] value of HTTP Basic authentication. *)
Definition basic_auth (user passwd : string) : string :=
  "Basic " +:+ b64encode (user +:+ ":" +:+ passwd).

(** The headers of an established session: the content type, and the
    credentials when the user name is not empty. *)
Definition session_headers (default_headers : gmap string string)
           (user : option string) (passwd : string) : gmap string string :=
  if truthy user then
    <[ "Authorization" := basic_auth (default "" user) passwd ]>
      (<[ "Content-Type" := "application/json" ]> default_headers)
  else <[ "Content-Type" := "application/json" ]> default_headers.

(** The liveness probe. *)
Definition probe (default_headers : gmap string string)
           (user : option string) (passwd : string) (url : string) : request :=
  {| req_url := url;
     req_headers := session_headers default_headers user passwd;
     req_verify := false |}.

(** The line a verbose run prints before it connects. *)
Definition info_events (verbose : bool) (url : string) : list event :=
  if verbose then [EvPrint ("[INFO]: Connecting to Elasticsearch: " +:+ url)] else [].

Definition connection_failed (status : Z) : string :=
  "[ERROR]: Connection failed, got " +:+ str_int status +:+ " response!".

Definition unknown_tool (name config_name : string) : string :=
  "[ERROR]: Unknown tool: " +:+ dquote +:+ name +:+ dquote +:+ ", check " +:+ config_name.

(** The request [get_indexes] sends. *)
Definition catalog_request (es_session : Session) (es_host : string) : request :=
  {| req_url := es_host +:+ "/_cat/indices?h=index&format=json";
     req_headers := headers es_session;
     req_verify := false |}.

(** An event that is a network call. *)
Definition is_network_call (e : event) : bool :=
  match e with
  | EvGet _ => true
  | EvPrint _ => false
  end.

(** The option bag when the loop over the tools starts. *)
Definition base_settings (args : Args) (es_session : Session) : gmap string optval :=
  let es := elasticsearch (arg_config args) in
  <[ "tool_list" := OVal (VList (map VStr (tool_list (arg_config args)))) ]>
  (<[ "tool" := OVal (VStr (arg_tool args)) ]>
  (<[ "es_session" := OSession es_session ]>
  (<[ "es_pass" := OVal (opt_value (es_password es)) ]>
  (<[ "es_user" := OVal (opt_value (es_username es)) ]>
  (<[ "es_host" := OVal (VStr (base_url (arg_config args))) ]>
  (<[ "verbose" := OVal (VBool (arg_verbose args)) ]> ∅)))))).

(** The entries of the returned option bag that are not queries. *)
Definition settings (args : Args) (es_session : Session) : gmap string optval :=
  <[ "oformat" := OVal (VStr (arg_output args)) ]> (base_settings args es_session).

(** The query [init_sc] stores for a tool. *)
Definition query_for (t : tool) (args : Args) : option optval :=
  match bldq t (base_url (arg_config args)) (arg_addr args) (arg_start args)
             (arg_end args) (arg_limit args) with
  | Ret q => Some (OVal q)
  | _ => None
  end.

(** Scenario C as worded: the run ends in a non-zero exit that names the
    tool and the configuration file, and no event of the run is a network
    call. *)
Definition rejects_without_network (backend : request -> option response)
           (default_headers : gmap string string) (args : Args) : Prop :=
  ∃ code tr,
    init_sc backend default_headers args [] = (Exit code, tr)
    ∧ code ≠ 0
    ∧ EvPrint (unknown_tool (arg_tool args) (arg_config_name args)) ∈ tr
    ∧ Forall (fun e => is_network_call e = false) tr.

(** The tool plan as worded: the run returns and the bag holds a query
    under the name of every enabled tool. *)
Definition plan_has_every_enabled_tool (backend : request -> option response)
           (default_headers : gmap string string) (args : Args) : Prop :=
  ∃ opts tr,
    init_sc backend default_headers args [] = (Ret opts, tr)
    ∧ ∀ name, name ∈ tool_list (arg_config args) → ∃ q, opts !! name = Some (OVal q).

(** ** Vocabulary of the further properties *)

(** The path a tool's builder appends to the backend address; httpx
    documents live in the nmap index. *)
Definition search_path (t : tool) : string :=
  match t with
  | Nuclei => "/nuclei/_search?filter_path=hits.hits._source"
  | Nmap | Httpx => "/nmap/_search?filter_path=hits.hits._source"
  end.

Definition uri_path : list string := ["_uri"].
Definition includes_path : list string := ["_search"; "_source"; "includes"].
Definition size_path : list string := ["_search"; "size"].

(** What is wrong with a decoded catalog entry, if anything: the exception
    the loop of [get_indexes] raises on it. *)
Definition entry_defect (idx : value) : option exn :=
  match idx with
  | VDict items =>
      match dict_get "index" items with
      | None => Some KeyError
      | Some (VStr _) => None
      | Some _ => Some AttributeError
      end
  | _ => Some TypeError
  end.

(** The name of an entry without defect. *)
Definition entry_name (idx : value) : string :=
  match idx with
  | VDict items =>
      match dict_get "index" items with
      | Some (VStr name) => name
      | _ => ""
      end
  | _ => ""
  end.

(** The keys of the option bag that [init_sc] sets whatever the tools. *)
Definition settings_keys : list string :=
  ["verbose"; "es_host"; "es_user"; "es_pass"; "es_session"; "tool"; "tool_list";
   "oformat"].

(** The same command line with another requested tool. *)
Definition with_tool (args : Args) (requested : string) : Args :=
  {| arg_config := arg_config args;
     arg_config_name := arg_config_name args;
     arg_addr := arg_addr args;
     arg_start := arg_start args;
     arg_end := arg_end args;
     arg_limit := arg_limit args;
     arg_output := arg_output args;
     arg_tool := requested;
     arg_verbose := arg_verbose args |}.

(** The command line [main] hands to [init_sc] when only the configuration
    file is given: the defaults of its argument parser. *)
Definition default_args (conf : Conf) (config_name : string) : Args :=
  {| arg_config := conf;
     arg_config_name := config_name;
     arg_addr := None;
     arg_start := "now-24h";
     arg_end := "now";
     arg_limit := 100;
     arg_output := "txt";
     arg_tool := "all";
     arg_verbose := false |}.


(** ** The builders on a store of mutable objects

    The builders above work on values. The script works on objects: a
    display allocates a fresh [dict] or [list], and [append] changes a list
    in place. This second embedding keeps the objects in a store, so that
    what one call leaves behind is there when the next call runs. *)

Module Store.

(** What a variable or a slot of a container holds: an immutable value
    ([None], an [int], a [str]) or a reference to a container. *)
Inductive hval : Type :=
| HNone
| HInt (n : Z)
| HStr (s : string)
| HRef (loc : nat).

(** A mutable container: a [list] or a [dict] with string keys. *)
Inductive obj : Type :=
| OList (items : list hval)
| ODict (items : list (string * hval)).

(** The store: the containers allocated so far; a reference is a position
    in it. *)
Abbreviation heap := (list obj).

(** A computation on the store. *)
Definition H (A : Type) : Type := heap -> outcome (A * heap).

Definition hret {A} (a : A) : H A := fun h => Ret (a, h).

Definition hbind {A B} (c : H A) (k : A -> H B) : H B :=
  fun h =>
    match c h with
    | Ret (a, h') => k a h'
    | Exit code => Exit code
    | Raise e => Raise e
    end.

Notation "'let!' x := c1 'in' c2" := (hbind c1 (fun x => c2))
  (at level 10, x name, c1 at level 100, c2 at level 200).
Notation "c1 >> c2" := (hbind c1 (fun _ => c2))
  (at level 100, right associativity).

(** A list display [[x1, ..., xn]]: a new object, whatever the store holds. *)
Definition new_list (items : list hval) : H hval :=
  fun h => Ret (HRef (length h), h ++ [OList items]).

(** A dict display [{k1: v1, ..., kn: vn}]. *)
Definition new_dict (items : list (string * hval)) : H hval :=
  fun h => Ret (HRef (length h), h ++ [ODict items]).

(** [d[k] = v]: the object [d] refers to is changed in place. *)
Definition setitem (d : hval) (k : string) (v : hval) : H unit :=
  fun h =>
    match d with
    | HRef loc =>
        match h !! loc with
        | Some (ODict items) => Ret (tt, <[ loc := ODict (dict_set k v items) ]> h)
        | _ => Raise TypeError
        end
    | _ => Raise TypeError
    end.

(** [d[k]]. *)
Definition getitem (d : hval) (k : string) : H hval :=
  fun h =>
    match d with
    | HRef loc =>
        match h !! loc with
        | Some (ODict items) =>
            match dict_get k items with
            | Some v => Ret (v, h)
            | None => Raise KeyError
            end
        | _ => Raise TypeError
        end
    | _ => Raise TypeError
    end.

(** [l.append(x)]: the object [l] refers to is changed in place, for
    every holder of a reference to it. *)
Definition append (l : hval) (x : hval) : H unit :=
  fun h =>
    match l with
    | HRef loc =>
        match h !! loc with
        | Some (OList items) => Ret (tt, <[ loc := OList (items ++ [x]) ]> h)
        | _ => Raise AttributeError
        end
    | _ => Raise AttributeError
    end.

(** A [None]-or-[str] argument as a stored value. *)
Definition of_opt (o : option string) : hval :=
  match o with
  | Some s => HStr s
  | None => HNone
  end.

(** All the results, when none is missing. *)
Fixpoint all_some {A : Type} (l : list (option A)) : option (list A) :=
  match l with
  | [] => Some []
  | o :: l' =>
      match o, all_some l' with
      | Some a, Some r => Some (a :: r)
      | _, _ => None
      end
  end.

(** The value a stored value stands for: references are followed, at most
    [fuel] deep. *)
Fixpoint reify (fuel : nat) (h : heap) (v : hval) : option value :=
  match v with
  | HNone => Some VNone
  | HInt n => Some (VInt n)
  | HStr s => Some (VStr s)
  | HRef loc =>
      match fuel with
      | O => None
      | S fuel' =>
          match h !! loc with
          | Some (OList items) =>
              option_map VList (all_some (map (reify fuel' h) items))
          | Some (ODict items) =>
              option_map VDict
                (all_some (map (fun kv => option_map (pair (fst kv))
                                                     (reify fuel' h (snd kv)))
                               items))
          | None => None
          end
      end
  end.

(** The document behind [v]: a store of [n] objects that has no cycle has
    no chain of references longer than [n]. *)
Definition contents (h : heap) (v : hval) : option value := reify (length h) h v.

(** [nuclei_bldq], statement by statement; the displays allocate inside
    out, left to right. *)
Definition nuclei_bldq (es_host : string) (ip_addr : option string)
           (stime etime : string) (slimit : Z) : H hval :=
  let! _dict := new_dict [] in
  setitem _dict "_uri" (HStr (es_host +:+ "/nuclei/_search?filter_path=hits.hits._source")) >>
  let! must := new_list [] in
  let! bounds := new_dict [("gte", HStr stime); ("lte", HStr etime)] in
  let! on_field := new_dict [("@timestamp", bounds)] in
  let! range := new_dict [("range", on_field)] in
  let! filter := new_list [range] in
  let! bool := new_dict [("must", must); ("filter", filter)] in
  let! query := new_dict [("bool", bool)] in
  let! includes := new_list [HStr "@timestamp"; HStr "event.ip"; HStr "event.info.severity";
                             HStr "event.info.name"; HStr "event.matched-at";
                             HStr "event.template-id";
                             HStr "event.info.classification.cvss-score";
                             HStr "event.info.description"] in
  let! source := new_dict [("includes", includes)] in
  let! search := new_dict [("query", query); ("_source", source); ("size", HInt slimit)] in
  setitem _dict "_search" search >>
  (if truthy ip_addr then
     let! on_ip := new_dict [("event.ip", of_opt ip_addr)] in
     let! match_ip := new_dict [("match", on_ip)] in
     let! s := getitem _dict "_search" in
     let! q := getitem s "query" in
     let! b := getitem q "bool" in
     let! m := getitem b "must" in
     append m match_ip
   else hret tt) >>
  hret _dict.


(** [nmap_bldq]. *)
Definition nmap_bldq (es_host : string) (ip_addr : option string)
           (stime etime : string) (slimit : Z) : H hval :=
  let! _dict := new_dict [] in
  setitem _dict "_uri" (HStr (es_host +:+ "/nmap/_search?filter_path=hits.hits._source")) >>
  let! must := new_list [] in
  let! bounds := new_dict [("gte", HStr stime); ("lte", HStr etime)] in
  let! on_field := new_dict [("time", bounds)] in
  let! range := new_dict [("range", on_field)] in
  let! filter := new_list [range] in
  let! bool := new_dict [("must", must); ("filter", filter)] in
  let! query := new_dict [("bool", bool)] in
  let! includes := new_list [HStr "time"; HStr "ip"; HStr "port"; HStr "protocol";
                             HStr "script"; HStr "script_output"] in
  let! source := new_dict [("includes", includes)] in
  let! search := new_dict [("query", query); ("_source", source); ("size", HInt slimit)] in
  setitem _dict "_search" search >>
  (if truthy ip_addr then
     let! on_ip := new_dict [("ip", of_opt ip_addr)] in
     let! match_ip := new_dict [("match", on_ip)] in
     let! s := getitem _dict "_search" in
     let! q := getitem s "query" in
     let! b := getitem q "bool" in
     let! m := getitem b "must" in
     append m match_ip
   else hret tt) >>
  hret _dict.


(** [httpx_bldq]. *)
Definition httpx_bldq (es_host : string) (ip_addr : option string)
           (stime etime : string) (slimit : Z) : H hval :=
  let! _dict := new_dict [] in
  setitem _dict "_uri" (HStr (es_host +:+ "/nmap/_search?filter_path=hits.hits._source")) >>
  let! on_script := new_dict [("script", HStr "httpx")] in
  let! match_script := new_dict [("match", on_script)] in
  let! must := new_list [match_script] in
  let! on_output := new_dict [("field", HStr "script_output")] in
  let! exists_output := new_dict [("exists", on_output)] in
  let! bounds := new_dict [("gte", HStr stime); ("lte", HStr etime)] in
  let! on_field := new_dict [("time", bounds)] in
  let! range := new_dict [("range", on_field)] in
  let! filter := new_list [exists_output; range] in
  let! bool := new_dict [("must", must); ("filter", filter)] in
  let! query := new_dict [("bool", bool)] in
  let! includes := new_list [HStr "time"; HStr "script"; HStr "script_output"] in
  let! source := new_dict [("includes", includes)] in
  let! search := new_dict [("query", query); ("_source", source); ("size", HInt slimit)] in
  setitem _dict "_search" search >>
  (if truthy ip_addr then
     let! on_ip := new_dict [("ip", of_opt ip_addr)] in
     let! match_ip := new_dict [("match", on_ip)] in
     let! s := getitem _dict "_search" in
     let! q := getitem s "query" in
     let! b := getitem q "bool" in
     let! m := getitem b "must" in
     append m match_ip
   else hret tt) >>
  hret _dict.


(** The builder on the store for a tool. *)
Definition bldq (t : tool)
  : string -> option string -> string -> string -> Z -> H hval :=
  match t with
  | Nmap => nmap_bldq
  | Httpx => httpx_bldq
  | Nuclei => nuclei_bldq
  end.

(** A stored value moved [n] positions up the store. *)
Definition shift (n : nat) (v : hval) : hval :=
  match v with
  | HRef loc => HRef (n + loc)
  | _ => v
  end.

(** A container whose references are moved [n] positions up. *)
Definition shift_obj (n : nat) (o : obj) : obj :=
  match o with
  | OList items => OList (map (shift n) items)
  | ODict items => ODict (map (fun kv => (fst kv, shift n (snd kv))) items)
  end.

(** The outcome of a run from the empty store, placed after the objects
    of [h]. *)
Definition relocate {A} (f : nat -> A -> A) (h : heap) (o : outcome (A * heap))
  : outcome (A * heap) :=
  match o with
  | Ret (a, new) => Ret (f (length h) a, h ++ map (shift_obj (length h)) new)
  | Exit code => Exit code
  | Raise e => Raise e
  end.

End Store.

(** ** Sample inputs *)

Definition sample_es : ESConf :=
  {| es_ssl := false; es_ip := "127.0.0.1"; es_port := 9200;
     es_username := Some "elastic"; es_password := Some "changeme" |}.

Definition sample_args (tools : list string) (requested : string) : Args :=
  {| arg_config := {| elasticsearch := sample_es; tool_list := tools |};
     arg_config_name := "conf/santacruz.yml";
     arg_addr := None; arg_start := "now-24h"; arg_end := "now";
     arg_limit := 100; arg_output := "txt"; arg_tool := requested;
     arg_verbose := false |}.

(** A backend that gives the same answer to every request. *)
Definition reply_with (status : Z) (body : string) : request -> option response :=
  fun _ => Some {| status_code := status; text := body |}.

(** A decoded catalog: four indices, two of them internal. [json.loads]
    stands outside the model, so the sample decoder returns this value for
    the sample reply. *)
Definition sample_catalog : value :=
  VList [VDict [("index", VStr ".kibana_1")];
         VDict [("index", VStr "nmap")];
         VDict [("index", VStr ".security-7")];
         VDict [("index", VStr "nuclei")];
         VDict [("index", VStr "nmap")]].

Definition sample_json_loads (body : string) : option value := Some sample_catalog.

(** * Properties *)

Example nmap_bldq_sample :
  nmap_bldq "http://es:9200" (Some "10.0.0.5") "now-1h" "now" 5 =
  Ret (VDict
    [("_uri", VStr "http://es:9200/nmap/_search?filter_path=hits.hits._source");
     ("_search", VDict
        [("query", VDict
           [("bool", VDict
              [("must", VList [VDict [("match", VDict [("ip", VStr "10.0.0.5")])]]);
               ("filter", VList
                  [VDict [("range", VDict
                     [("time", VDict [("gte", VStr "now-1h");
                                      ("lte", VStr "now")])])]])])]);
         ("_source", VDict
           [("includes", VList
              [VStr "time"; VStr "ip"; VStr "port"; VStr "protocol";
               VStr "script"; VStr "script_output"])]);
         ("size", VInt 5)])]).
Proof. reflexivity. Qed.

Example b64encode_rfc4648 :
  map b64encode [""; "f"; "fo"; "foo"; "foob"; "fooba"; "foobar"] =
  [""; "Zg=="; "Zm8="; "Zm9v"; "Zm9vYg=="; "Zm9vYmE="; "Zm9vYmFy"].
Proof. reflexivity. Qed.

Example b64encode_credentials :
  b64encode "elastic:changeme" = "ZWxhc3RpYzpjaGFuZ2VtZQ==".
Proof. reflexivity. Qed.

Example str_int_samples :
  map str_int [200; 503; 0; -1; 9200] = ["200"; "503"; "0"; "-1"; "9200"].
Proof. reflexivity. Qed.

(** ** The builders *)

(** Every builder returns: the subscripts it follows exist in the document
    it has just built. *)
Lemma bldq_returns t es_host ip_addr stime etime slimit :
  ∃ doc, bldq t es_host ip_addr stime etime slimit = Ret doc.
Proof. destruct t, ip_addr as [[|c a]|]; eexists; reflexivity. Qed.

(** C3. For each of the three builders and all arguments, the [filter]
    array of the query body holds exactly one range clause; it is on the
    tool's own time-stamp field ([@timestamp] for nuclei, [time] for nmap
    and httpx) and its [gte] and [lte] are the given start and end
    strings. *)
Theorem bldq_filter_one_range t es_host ip_addr stime etime slimit :
  ∃ doc clauses,
    bldq t es_host ip_addr stime etime slimit = Ret doc
    ∧ getpath doc filter_path = Ret (VList clauses)
    ∧ List.filter is_range_clause clauses
      = [VDict [("range", VDict [(timestamp_field t,
                                  VDict [("gte", VStr stime); ("lte", VStr etime)])])]]
    ∧ length (List.filter is_range_clause clauses) = 1%nat.
Proof.
  destruct t, ip_addr as [[|c a]|];
    (eexists; eexists; split; [reflexivity | split; [reflexivity | split; reflexivity]]).
Qed.

(** C4. For each builder: a non-empty address gives a [must] array that
    is the initial one followed by a match clause on the tool's address
    field with exactly that address; an absent or empty address leaves the
    [must] array as initialised (empty, or the fixed httpx clause) with no
    match clause on the address field. *)
Theorem bldq_must_address t es_host stime etime slimit :
  (∀ c a, ∃ doc,
      bldq t es_host (Some (String c a)) stime etime slimit = Ret doc
      ∧ getpath doc must_path
        = Ret (VList (fixed_must t
                      ++ [VDict [("match", VDict [(address_field t, VStr (String c a))])]])))
  ∧ Forall (fun ip_addr => ∃ doc,
      bldq t es_host ip_addr stime etime slimit = Ret doc
      ∧ getpath doc must_path = Ret (VList (fixed_must t))
      ∧ List.filter (is_match_on (address_field t)) (fixed_must t) = [])
    [None; Some ""].
Proof.
  split.
  - intros c a. destruct t; eexists; split; reflexivity.
  - repeat constructor; destruct t; eexists; repeat split; reflexivity.
Qed.

(** C5. The nmap builder with no address, start [now-24h], end [now] and
    limit 100 gives a body whose filter is the single range clause on
    [time], whose [must] is empty, whose projection is the six nmap fields
    and whose size is 100. *)
Theorem nmap_bldq_scenario_a es_host :
  ∃ doc,
    nmap_bldq es_host None "now-24h" "now" 100 = Ret doc
    ∧ getpath doc ["_search"; "query"; "bool"; "filter"]
      = Ret (VList [VDict [("range", VDict [("time",
                       VDict [("gte", VStr "now-24h"); ("lte", VStr "now")])])]])
    ∧ getpath doc ["_search"; "query"; "bool"; "must"] = Ret (VList [])
    ∧ getpath doc ["_search"; "_source"; "includes"]
      = Ret (VList [VStr "time"; VStr "ip"; VStr "port"; VStr "protocol";
                    VStr "script"; VStr "script_output"])
    ∧ getpath doc ["_search"; "size"] = Ret (VInt 100).
Proof. eexists. repeat split; reflexivity. Qed.

(** C6. The httpx builder with address 10.0.0.5 gives the [must] array
    made of the fixed [script] clause followed by the address clause, and a
    filter array that holds the existence clause on [script_output] and the
    time-range clause. *)
Theorem httpx_bldq_scenario_b es_host stime etime slimit :
  ∃ doc clauses,
    httpx_bldq es_host (Some "10.0.0.5") stime etime slimit = Ret doc
    ∧ getpath doc ["_search"; "query"; "bool"; "must"]
      = Ret (VList [VDict [("match", VDict [("script", VStr "httpx")])];
                    VDict [("match", VDict [("ip", VStr "10.0.0.5")])]])
    ∧ getpath doc ["_search"; "query"; "bool"; "filter"] = Ret (VList clauses)
    ∧ VDict [("exists", VDict [("field", VStr "script_output")])] ∈ clauses
    ∧ VDict [("range", VDict [("time",
               VDict [("gte", VStr stime); ("lte", VStr etime)])])] ∈ clauses.
Proof.
  eexists; eexists.
  split; [reflexivity|]. split; [reflexivity|]. split; [reflexivity|].
  split; [apply list_elem_of_here | apply list_elem_of_further, list_elem_of_here].
Qed.

(** ** The session manager *)

Lemma string_app_assoc (a b c : string) : (a +:+ b) +:+ c = a +:+ (b +:+ c).
Proof.
  induction a as [|x a IH]; [done|].
  change (String x ((a +:+ b) +:+ c) = String x (a +:+ (b +:+ c))).
  by rewrite IH.
Qed.

#[local] Arguments b64encode : simpl never.
#[local] Arguments str_int : simpl never.

(** What [init_ESsession] does once the credentials can be joined and the
    backend answers the probe. *)
Lemma init_ESsession_run backend dh user passwd p url verbose tr r :
  (truthy user = true → passwd = Some p) →
  backend (probe dh user p url) = Some r →
  init_ESsession backend dh user passwd url verbose tr =
  if status_code r =? 200 then
    (Ret {| headers := session_headers dh user p |},
     tr ++ info_events verbose url ++ [EvGet (probe dh user p url)])
  else
    (Exit (-1),
     tr ++ info_events verbose url
        ++ [EvGet (probe dh user p url); EvPrint (connection_failed (status_code r))]).
Proof.
  intros Hcred Hback.
  unfold init_ESsession, mbind, session_get, probe, session_headers, basic_auth in *.
  destruct (truthy user) eqn:Huser.
  - rewrite (Hcred eq_refl). destruct user as [u|]; [|discriminate].
    destruct verbose; simpl in *;
      rewrite <- !insert_union_singleton_l, string_app_assoc, Hback;
      destruct (status_code r =? 200); simpl;
      unfold connection_failed, mret, headers_update; simpl;
      rewrite <- ?insert_union_singleton_l, <- ?app_assoc; reflexivity.
  - destruct verbose; simpl in *;
      rewrite <- !insert_union_singleton_l, Hback;
      destruct (status_code r =? 200); simpl;
      unfold connection_failed, mret, headers_update; simpl;
      rewrite <- ?insert_union_singleton_l, <- ?app_assoc; reflexivity.
Qed.

(** ** The dispatcher *)

Lemma known_tool_name t : known_tool (tool_name t) = Some t.
Proof. by destruct t. Qed.

Lemma known_tool_Some name t : known_tool name = Some t → name = tool_name t.
Proof.
  unfold known_tool.
  destruct (String.eqb_spec name "nmap") as [->|_]; [by intros [= <-]|].
  destruct (String.eqb_spec name "httpx") as [->|_]; [by intros [= <-]|].
  destruct (String.eqb_spec name "nuclei") as [->|_]; [by intros [= <-]|].
  discriminate.
Qed.

Lemma query_for_Some t args :
  ∃ q, bldq t (base_url (arg_config args)) (arg_addr args) (arg_start args)
            (arg_end args) (arg_limit args) = Ret q
       ∧ query_for t args = Some (OVal q).
Proof.
  unfold query_for.
  destruct (bldq_returns t (base_url (arg_config args)) (arg_addr args)
              (arg_start args) (arg_end args) (arg_limit args)) as [q Hq].
  exists q. by rewrite Hq.
Qed.

(** The loop over the configured tools always returns; under the name of a
    known tool that is configured it leaves that tool's query, and it leaves
    every other key as it found it. *)
Lemma build_queries_lookup tools args opts :
  ∃ opts',
    build_queries tools (base_url (arg_config args)) args opts = Ret opts'
    ∧ ∀ k, opts' !! k =
           match known_tool k with
           | Some t => if bool_decide (k ∈ tools) then query_for t args else opts !! k
           | None => opts !! k
           end.
Proof.
  revert opts. induction tools as [|name rest IH]; intros opts.
  { exists opts. split; [done|]. intros k. destruct (known_tool k); [|done].
    rewrite bool_decide_eq_false_2; [done | apply not_elem_of_nil]. }
  assert (Hknown : ∀ t, name = tool_name t →
            ∃ opts', build_queries (name :: rest) (base_url (arg_config args)) args opts
                     = build_queries rest (base_url (arg_config args)) args opts'
                     ∧ ∀ k, opts' !! k = if bool_decide (k = name)
                                         then query_for t args else opts !! k).
  { intros t ->. destruct (query_for_Some t args) as (q & Hq & Hqf).
    exists (<[ tool_name t := OVal q ]> opts). split.
    - destruct t; simpl in *; rewrite Hq; reflexivity.
    - intros k. case_bool_decide as Hk.
      + subst k. by rewrite lookup_insert_eq.
      + by rewrite lookup_insert_ne. }
  destruct (known_tool name) as [t|] eqn:Hname.
  - destruct (Hknown t (known_tool_Some _ _ Hname)) as (opts1 & -> & H1).
    destruct (IH opts1) as (opts' & Hrun & Hlk).
    exists opts'. split; [done|]. intros k. rewrite Hlk, H1.
    destruct (known_tool k) as [t'|] eqn:Hk.
    + case_bool_decide as Hin.
      * rewrite bool_decide_eq_true_2; [done | by apply list_elem_of_further].
      * case_bool_decide as Heq.
        -- subst k. rewrite bool_decide_eq_true_2 by apply list_elem_of_here.
           congruence.
        -- rewrite bool_decide_eq_false_2; [done|].
           rewrite elem_of_cons. tauto.
    + case_bool_decide as Heq; [subst k; congruence | done].
  - assert (build_queries (name :: rest) (base_url (arg_config args)) args opts
            = build_queries rest (base_url (arg_config args)) args opts) as ->.
    { unfold known_tool in Hname. simpl.
      destruct (String.eqb name "nmap"); [discriminate|].
      destruct (String.eqb name "httpx"); [discriminate|].
      destruct (String.eqb name "nuclei"); [discriminate|]. reflexivity. }
    destruct (IH opts) as (opts' & Hrun & Hlk).
    exists opts'. split; [done|]. intros k. rewrite Hlk.
    destruct (known_tool k) as [t'|] eqn:Hk; [|done].
    assert (k ≠ name) by congruence.
    case_bool_decide as Hin.
    + rewrite bool_decide_eq_true_2; [done | by apply list_elem_of_further].
    + rewrite bool_decide_eq_false_2; [done|]. rewrite elem_of_cons. tauto.
Qed.

Lemma es_host_base_url conf :
  (if es_ssl (elasticsearch conf) then "https://" +:+ es_ip (elasticsearch conf)
   else "http://" +:+ es_ip (elasticsearch conf))
  +:+ (":" +:+ str_int (es_port (elasticsearch conf)))
  = base_url conf.
Proof. unfold base_url. destruct (es_ssl _); by rewrite string_app_assoc. Qed.

(** What [init_sc] does once the credentials can be joined and the backend
    answers the probe. *)
Lemma init_sc_run backend dh args p tr r :
  let conf := arg_config args in
  let es := elasticsearch conf in
  let rq := probe dh (es_username es) p (base_url conf) in
  let tr' := tr ++ info_events (arg_verbose args) (base_url conf) ++ [EvGet rq] in
  (truthy (es_username es) = true → es_password es = Some p) →
  backend rq = Some r →
  init_sc backend dh args tr =
  if status_code r =? 200 then
    if negb (String.eqb (arg_tool args) "all")
       && negb (bool_decide (arg_tool args ∈ tool_list conf))
    then (Exit (-1),
          tr' ++ [EvPrint (unknown_tool (arg_tool args) (arg_config_name args))])
    else
      match build_queries (tool_list conf) (base_url conf) args
              (base_settings args {| headers := session_headers dh (es_username es) p |})
      with
      | Ret opts => (Ret (<[ "oformat" := OVal (VStr (arg_output args)) ]> opts), tr')
      | Exit code => (Exit code, tr')
      | Raise e => (Raise e, tr')
      end
  else (Exit (-1), tr' ++ [EvPrint (connection_failed (status_code r))]).
Proof.
  intros conf es rq tr' Hcred Hback. subst conf es rq tr'.
  unfold init_sc. rewrite es_host_base_url. unfold mbind at 1.
  rewrite (init_ESsession_run _ _ _ _ p _ _ _ r Hcred Hback).
  destruct (status_code r =? 200).
  - unfold mbind at 1.
    destruct (negb (String.eqb (arg_tool args) "all")); simpl.
    + destruct (negb (bool_decide (arg_tool args ∈ tool_list (arg_config args)))); simpl.
      * unfold mbind, print, sys_exit, unknown_tool. simpl.
        rewrite <- !app_assoc. reflexivity.
      * unfold mbind, mret, lift, base_settings. simpl.
        destruct (build_queries _ _ _ _); reflexivity.
    + unfold mbind, mret, lift, base_settings. simpl.
      destruct (build_queries _ _ _ _); reflexivity.
  - rewrite <- !app_assoc. reflexivity.
Qed.

Lemma settings_not_tool args es_session t :
  settings args es_session !! tool_name t = None.
Proof.
  unfold settings, base_settings.
  destruct t; simpl; rewrite !lookup_insert_ne by discriminate; apply lookup_empty.
Qed.

(** What [init_sc] returns when the probe succeeds and the requested tool
    passes validation. *)
Lemma init_sc_returns backend dh args p tr r :
  let conf := arg_config args in
  let es := elasticsearch conf in
  let rq := probe dh (es_username es) p (base_url conf) in
  (truthy (es_username es) = true → es_password es = Some p) →
  backend rq = Some r →
  status_code r = 200 →
  arg_tool args = "all" ∨ arg_tool args ∈ tool_list conf →
  ∃ opts,
    init_sc backend dh args tr
    = (Ret opts, tr ++ info_events (arg_verbose args) (base_url conf) ++ [EvGet rq])
    ∧ ∀ k, opts !! k =
           match known_tool k with
           | Some t => if bool_decide (k ∈ tool_list conf) then query_for t args
                       else None
           | None => settings args {| headers := session_headers dh (es_username es) p |} !! k
           end.
Proof.
  intros conf es rq Hcred Hback Hok Hvalid. subst conf es rq.
  rewrite (init_sc_run _ _ _ p _ r Hcred Hback), Hok. simpl.
  assert (negb (String.eqb (arg_tool args) "all")
          && negb (bool_decide (arg_tool args ∈ tool_list (arg_config args))) = false) as ->.
  { destruct Hvalid as [-> | Hin]; [done|].
    rewrite (bool_decide_eq_true_2 _ Hin). apply andb_false_r. }
  destruct (build_queries_lookup (tool_list (arg_config args)) args
              (base_settings args
                 {| headers := session_headers dh
                                 (es_username (elasticsearch (arg_config args))) p |}))
    as (opts & -> & Hlk).
  eexists. split; [reflexivity|]. intros k.
  destruct (known_tool k) as [t|] eqn:Hk.
  - apply known_tool_Some in Hk as ->.
    rewrite lookup_insert_ne by (destruct t; discriminate).
    rewrite Hlk, known_tool_name. case_bool_decide; [done|].
    pose proof (settings_not_tool args
      {| headers := session_headers dh (es_username (elasticsearch (arg_config args))) p |} t)
      as Hs.
    unfold settings in Hs. by rewrite lookup_insert_ne in Hs by (destruct t; discriminate).
  - unfold settings. destruct (decide (k = "oformat")) as [->|Hne].
    + by rewrite !lookup_insert_eq.
    + rewrite !lookup_insert_ne by done. by rewrite Hlk, Hk.
Qed.

(** X10. A non-empty user name with no password ([None]) cannot be joined:
    the call raises [TypeError] before any request is sent; a verbose run
    has printed its line by then. *)
Lemma init_ESsession_no_password backend dh c u url verbose tr :
  init_ESsession backend dh (Some (String c u)) None url verbose tr
  = (Raise TypeError, tr ++ info_events verbose url).
Proof.
  unfold init_ESsession, mbind, print, mret, lift, info_events.
  destruct verbose; simpl; by rewrite ?app_nil_r.
Qed.

(** C9. When the backend answers the liveness probe with a status other
    than 200, [init_ESsession] prints the diagnostic with that status and
    exits with status -1, and so does [init_sc], whose only network call is
    then the probe: no index is listed and no plan is returned. When the
    answer is 200 the session is returned; its [Content-Type] header is set,
    and a non-empty user name also gives the [Authorization] header of
    HTTP Basic authentication for [user:password]. *)
Theorem probe_decides_session backend dh user passwd p url verbose tr r :
  (truthy user = true → passwd = Some p) →
  backend (probe dh user p url) = Some r →
  (status_code r ≠ 200 →
     init_ESsession backend dh user passwd url verbose tr
     = (Exit (-1),
        tr ++ info_events verbose url
           ++ [EvGet (probe dh user p url);
               EvPrint ("[ERROR]: Connection failed, got "
                        +:+ str_int (status_code r) +:+ " response!")])
     ∧ ∀ args,
         es_username (elasticsearch (arg_config args)) = user →
         es_password (elasticsearch (arg_config args)) = passwd →
         base_url (arg_config args) = url →
         arg_verbose args = verbose →
         ∃ tr', init_sc backend dh args tr = (Exit (-1), tr')
                ∧ List.filter is_network_call tr'
                  = List.filter is_network_call tr ++ [EvGet (probe dh user p url)])
  ∧ (status_code r = 200 →
     ∃ session,
       init_ESsession backend dh user passwd url verbose tr
       = (Ret session, tr ++ info_events verbose url ++ [EvGet (probe dh user p url)])
       ∧ headers session !! "Content-Type" = Some "application/json"
       ∧ (∀ u, user = Some u → u ≠ "" →
             headers session !! "Authorization"
             = Some ("Basic " +:+ b64encode (u +:+ ":" +:+ p)))
       ∧ (truthy user = false →
             headers session !! "Authorization" = dh !! "Authorization")).
Proof.
  intros Hcred Hback. split.
  - intros Hbad. apply Z.eqb_neq in Hbad. split.
    + by rewrite (init_ESsession_run _ _ _ _ p _ _ _ r Hcred Hback), Hbad.
    + intros args <- <- <- <-.
      rewrite (init_sc_run _ _ _ p _ r Hcred Hback), Hbad.
      eexists. split; [reflexivity|].
      rewrite !List.filter_app. simpl.
      destruct (arg_verbose args); simpl; by rewrite ?app_nil_r.
  - intros Hok. apply Z.eqb_eq in Hok.
    eexists. split.
    + by rewrite (init_ESsession_run _ _ _ _ p _ _ _ r Hcred Hback), Hok.
    + simpl. unfold session_headers. repeat split.
      * destruct (truthy user);
          [rewrite lookup_insert_ne by discriminate|]; apply lookup_insert_eq.
      * intros u -> Hu. destruct u as [|c u]; [done|]. simpl.
        apply lookup_insert_eq.
      * intros ->. by rewrite lookup_insert_ne by discriminate.
Qed.

Lemma probe_decides_session_witness :
  init_ESsession (reply_with 503 "") ∅ (Some "elastic") (Some "changeme")
                 "http://127.0.0.1:9200" false []
  = (Exit (-1),
     [EvGet (probe ∅ (Some "elastic") "changeme" "http://127.0.0.1:9200");
      EvPrint "[ERROR]: Connection failed, got 503 response!"])
  ∧ ∃ session,
      init_ESsession (reply_with 200 "") ∅ (Some "elastic") (Some "changeme")
                     "http://127.0.0.1:9200" true []
      = (Ret session,
         [EvPrint "[INFO]: Connecting to Elasticsearch: http://127.0.0.1:9200";
          EvGet (probe ∅ (Some "elastic") "changeme" "http://127.0.0.1:9200")])
      ∧ headers session !! "Content-Type" = Some "application/json"
      ∧ headers session !! "Authorization" = Some "Basic ZWxhc3RpYzpjaGFuZ2VtZQ==".
Proof.
  split.
  - refine (proj1 (proj1 (probe_decides_session (reply_with 503 "") ∅ (Some "elastic")
                     (Some "changeme") "changeme" "http://127.0.0.1:9200" false []
                     {| status_code := 503; text := "" |} (fun _ => eq_refl) eq_refl) _)).
    simpl. discriminate.
  - destruct (proj2 (probe_decides_session (reply_with 200 "") ∅ (Some "elastic")
                     (Some "changeme") "changeme" "http://127.0.0.1:9200" true []
                     {| status_code := 200; text := "" |} (fun _ => eq_refl) eq_refl)
                eq_refl) as (session & Hrun & Hct & Hauth & _).
    exists session. split; [exact Hrun|]. split; [exact Hct|].
    exact (Hauth "elastic" eq_refl ltac:(discriminate)).
Defined.

(** C1, as the code has it. A requested tool other than [all] that is not
    configured makes [init_sc] exit with status -1 after a diagnostic naming
    the tool and the configuration file; this happens after the session has
    been established, so the run's network calls are exactly one, the
    liveness probe (answered with 200), and it comes before the
    diagnostic. *)
Theorem unknown_tool_rejected_after_probe backend dh args p tr r :
  let conf := arg_config args in
  let es := elasticsearch conf in
  let rq := probe dh (es_username es) p (base_url conf) in
  (truthy (es_username es) = true → es_password es = Some p) →
  backend rq = Some r →
  status_code r = 200 →
  arg_tool args ≠ "all" →
  arg_tool args ∉ tool_list conf →
  init_sc backend dh args tr
  = (Exit (-1),
     tr ++ info_events (arg_verbose args) (base_url conf)
        ++ [EvGet rq;
            EvPrint ("[ERROR]: Unknown tool: " +:+ dquote +:+ arg_tool args +:+ dquote
                     +:+ ", check " +:+ arg_config_name args)]).
Proof.
  intros conf es rq Hcred Hback Hok Hnotall Hnotin. subst conf es rq.
  rewrite (init_sc_run _ _ _ p _ r Hcred Hback), Hok. simpl.
  apply String.eqb_neq in Hnotall. rewrite Hnotall.
  rewrite (bool_decide_eq_false_2 _ Hnotin). simpl.
  by rewrite <- !app_assoc.
Qed.

Lemma unknown_tool_rejected_after_probe_witness :
  init_sc (reply_with 200 "") ∅ (sample_args ["nmap"; "httpx"] "masscan") []
  = (Exit (-1),
     [EvGet (probe ∅ (Some "elastic") "changeme" "http://127.0.0.1:9200");
      EvPrint ("[ERROR]: Unknown tool: " +:+ dquote +:+ "masscan" +:+ dquote
               +:+ ", check conf/santacruz.yml")]).
Proof.
  refine (unknown_tool_rejected_after_probe (reply_with 200 "") ∅
            (sample_args ["nmap"; "httpx"] "masscan") "changeme" []
            {| status_code := 200; text := "" |}
            (fun _ => eq_refl) eq_refl eq_refl _ _).
  - simpl. discriminate.
  - simpl. intros Hin. apply elem_of_cons in Hin as [Hin | Hin]; [discriminate|].
    apply elem_of_cons in Hin as [Hin | Hin]; [discriminate|].
    by apply not_elem_of_nil in Hin.
Defined.

(** C1, as worded, fails: with [masscan] requested and only [nmap]
    configured, the run has already sent the liveness probe when it
    rejects the tool. *)
Lemma unknown_tool_rejected_probe_sent :
  arg_tool (sample_args ["nmap"] "masscan") ≠ "all"
  ∧ (arg_tool (sample_args ["nmap"] "masscan")
     ∉ tool_list (arg_config (sample_args ["nmap"] "masscan")))
  ∧ ¬ rejects_without_network (reply_with 200 "") ∅ (sample_args ["nmap"] "masscan").
Proof.
  split; [discriminate|]. split.
  { simpl. intros Hin. apply elem_of_cons in Hin as [Hin | Hin]; [discriminate|].
    by apply not_elem_of_nil in Hin. }
  intros (code & tr & Hrun & _ & _ & Hnet).
  rewrite (init_sc_run (reply_with 200 "") ∅ (sample_args ["nmap"] "masscan")
             "changeme" [] {| status_code := 200; text := "" |}
             (fun _ => eq_refl) eq_refl) in Hrun.
  simpl in Hrun. injection Hrun as _ <-.
  apply Forall_cons in Hnet as [Hget _]. discriminate Hget.
Qed.

(** C2, as the code has it. When the probe succeeds and the requested tool
    passes validation (it is [all] or it is configured), [init_sc] returns a
    bag in which each of nmap, httpx and nuclei that is configured has the
    document its builder returns for the configured backend and the given
    address, time window and limit, whichever tool was requested; a known
    tool that is not configured has no entry; and every other key, a
    configured name without a builder included, holds what the settings
    hold under it. One network call, the probe, is made. *)
Theorem plan_for_known_enabled_tools backend dh args p tr r :
  let conf := arg_config args in
  let es := elasticsearch conf in
  let rq := probe dh (es_username es) p (base_url conf) in
  (truthy (es_username es) = true → es_password es = Some p) →
  backend rq = Some r →
  status_code r = 200 →
  arg_tool args = "all" ∨ arg_tool args ∈ tool_list conf →
  ∃ opts,
    init_sc backend dh args tr
    = (Ret opts, tr ++ info_events (arg_verbose args) (base_url conf) ++ [EvGet rq])
    ∧ (∀ t, tool_name t ∈ tool_list conf →
          ∃ q, bldq t (base_url conf) (arg_addr args) (arg_start args)
                    (arg_end args) (arg_limit args) = Ret q
               ∧ opts !! tool_name t = Some (OVal q))
    ∧ (∀ t, tool_name t ∉ tool_list conf → opts !! tool_name t = None)
    ∧ (∀ name, known_tool name = None →
          opts !! name
          = settings args {| headers := session_headers dh (es_username es) p |} !! name).
Proof.
  intros conf es rq Hcred Hback Hok Hvalid. subst conf es rq.
  destruct (init_sc_returns backend dh args p tr r Hcred Hback Hok Hvalid)
    as (opts & Hrun & Hlk).
  exists opts. split; [exact Hrun|]. repeat split.
  - intros t Hin. destruct (query_for_Some t args) as (q & Hq & Hqf).
    exists q. split; [exact Hq|].
    by rewrite Hlk, known_tool_name, (bool_decide_eq_true_2 _ Hin).
  - intros t Hout.
    by rewrite Hlk, known_tool_name, (bool_decide_eq_false_2 _ Hout).
  - intros name Hname. by rewrite Hlk, Hname.
Qed.

Lemma plan_for_known_enabled_tools_witness :
  ∃ opts q,
    init_sc (reply_with 200 "") ∅ (sample_args ["nmap"; "masscan"] "nmap") []
    = (Ret opts, [EvGet (probe ∅ (Some "elastic") "changeme" "http://127.0.0.1:9200")])
    ∧ nmap_bldq "http://127.0.0.1:9200" None "now-24h" "now" 100 = Ret q
    ∧ opts !! "nmap" = Some (OVal q)
    ∧ opts !! "httpx" = None.
Proof.
  destruct (plan_for_known_enabled_tools (reply_with 200 "") ∅
              (sample_args ["nmap"; "masscan"] "nmap") "changeme" []
              {| status_code := 200; text := "" |}
              (fun _ => eq_refl) eq_refl eq_refl
              (or_intror (list_elem_of_here "nmap" ["masscan"])))
    as (opts & Hrun & Hbuilt & Hnone & _).
  destruct (Hbuilt Nmap (list_elem_of_here "nmap" ["masscan"])) as (q & Hq & Hopt).
  exists opts, q. split; [exact Hrun|]. split; [exact Hq|]. split; [exact Hopt|].
  apply (Hnone Httpx). simpl. intros Hin.
  apply elem_of_cons in Hin as [Hin | Hin]; [discriminate|].
  apply elem_of_cons in Hin as [Hin | Hin]; [discriminate|].
  by apply not_elem_of_nil in Hin.
Defined.

(** C2, as worded, fails: with [nmap] and [masscan] configured the
    returned bag has no entry under [masscan], a name for which [init_sc]
    has no builder. *)
Lemma plan_misses_tool_without_builder :
  ¬ plan_has_every_enabled_tool (reply_with 200 "") ∅
      (sample_args ["nmap"; "masscan"] "all").
Proof.
  intros (opts & tr & Hrun & Hall).
  destruct (init_sc_returns (reply_with 200 "") ∅
              (sample_args ["nmap"; "masscan"] "all") "changeme" []
              {| status_code := 200; text := "" |}
              (fun _ => eq_refl) eq_refl eq_refl (or_introl eq_refl))
    as (opts' & Hrun' & Hlk).
  rewrite Hrun' in Hrun. injection Hrun as <- _.
  destruct (Hall "masscan") as [q Hq].
  { apply list_elem_of_further, list_elem_of_here. }
  rewrite Hlk in Hq. simpl in Hq.
  unfold settings, base_settings in Hq.
  rewrite !lookup_insert_ne in Hq by discriminate.
  by rewrite lookup_empty in Hq.
Qed.

(** ** The index enumerator *)

(** The loop only ever adds a name that does not start with a dot. *)
Lemma index_loop_no_dot entries :
  ∀ index_arr l,
    index_loop entries index_arr = Ret l →
    Forall (fun name => String.prefix "." name = false) index_arr →
    Forall (fun name => String.prefix "." name = false) l.
Proof.
  induction entries as [|idx rest IH]; intros index_arr l Hrun Hacc; simpl in Hrun.
  - by injection Hrun as <-.
  - destruct (getitem idx "index") as [name| |]; simpl in Hrun; try discriminate.
    destruct name; simpl in Hrun; try discriminate.
    apply (IH _ _ Hrun).
    destruct (String.prefix "." s) eqn:Hdot; simpl; [done|].
    apply Forall_app. split; [done|]. by constructor.
Qed.

(** On entries that each carry a name under [index], the loop returns the
    names without a leading dot, in order, after what it started with. *)
Lemma index_loop_filter entries names :
  Forall2 (fun entry name => getitem entry "index" = Ret (VStr name)) entries names →
  ∀ index_arr,
    index_loop entries index_arr
    = Ret (index_arr ++ List.filter (fun name => negb (String.prefix "." name)) names).
Proof.
  induction 1 as [|entry name entries names Hentry _ IH]; intros index_arr; simpl.
  - by rewrite app_nil_r.
  - rewrite Hentry. simpl. rewrite IH.
    destruct (String.prefix "." name); simpl; [done|].
    by rewrite <- app_assoc.
Qed.

(** C8. Whatever the backend replies and however the reply decodes, a
    list returned by [get_indexes] holds no name that starts with a dot. *)
Theorem get_indexes_no_internal backend json_loads es_session es_host verbose tr l tr' :
  get_indexes backend json_loads es_session es_host verbose tr = (Ret l, tr') →
  Forall (fun name => String.prefix "." name = false) l.
Proof.
  unfold get_indexes, mbind, session_get, lift. intros Hrun.
  destruct (backend _) as [r|]; [|discriminate].
  destruct (negb (status_code r =? 200)); [discriminate|].
  destruct (json_loads (text r)) as [idx_json|]; [|discriminate].
  destruct (iterate idx_json) as [entries| |]; try discriminate.
  destruct (index_loop entries []) as [l'| |] eqn:Hloop; try discriminate.
  injection Hrun as <- _.
  by apply (index_loop_no_dot _ _ _ Hloop).
Qed.

Lemma get_indexes_no_internal_witness :
  get_indexes (reply_with 200 "") sample_json_loads {| headers := ∅ |}
              "http://127.0.0.1:9200" false []
  = (Ret ["nmap"; "nuclei"; "nmap"],
     [EvGet (catalog_request {| headers := ∅ |} "http://127.0.0.1:9200")])
  ∧ Forall (fun name => String.prefix "." name = false) ["nmap"; "nuclei"; "nmap"].
Proof.
  assert (Hrun : get_indexes (reply_with 200 "") sample_json_loads {| headers := ∅ |}
                             "http://127.0.0.1:9200" false []
                 = (Ret ["nmap"; "nuclei"; "nmap"],
                    [EvGet (catalog_request {| headers := ∅ |} "http://127.0.0.1:9200")]))
    by reflexivity.
  split; [exact Hrun|].
  exact (get_indexes_no_internal _ _ _ _ _ _ _ _ Hrun).
Defined.

(** C10. When the catalog request is answered with 200 and the reply
    decodes to a list of entries that each carry a name under [index],
    [get_indexes] returns exactly the names that do not start with a dot,
    in the order of the reply and with repetitions kept, after a single
    request. *)
Theorem get_indexes_filters_in_order backend json_loads es_session es_host verbose
        tr r entries names :
  backend (catalog_request es_session es_host) = Some r →
  status_code r = 200 →
  json_loads (text r) = Some (VList entries) →
  Forall2 (fun entry name => getitem entry "index" = Ret (VStr name)) entries names →
  get_indexes backend json_loads es_session es_host verbose tr
  = (Ret (List.filter (fun name => negb (String.prefix "." name)) names),
     tr ++ [EvGet (catalog_request es_session es_host)]).
Proof.
  intros Hback Hok Hjson Hentries.
  unfold get_indexes, mbind, session_get, lift, catalog_request in *.
  rewrite Hback, Hok, Hjson. simpl.
  by rewrite (index_loop_filter _ _ Hentries).
Qed.

Lemma get_indexes_filters_in_order_witness :
  get_indexes (reply_with 200 "") sample_json_loads {| headers := ∅ |}
              "http://127.0.0.1:9200" false []
  = (Ret (List.filter (fun name => negb (String.prefix "." name))
                      [".kibana_1"; "nmap"; ".security-7"; "nuclei"; "nmap"]),
     [EvGet (catalog_request {| headers := ∅ |} "http://127.0.0.1:9200")]).
Proof.
  apply (get_indexes_filters_in_order (reply_with 200 "") sample_json_loads
           {| headers := ∅ |} "http://127.0.0.1:9200" false []
           {| status_code := 200; text := "" |}
           [VDict [("index", VStr ".kibana_1")]; VDict [("index", VStr "nmap")];
            VDict [("index", VStr ".security-7")]; VDict [("index", VStr "nuclei")];
            VDict [("index", VStr "nmap")]]);
    [reflexivity | reflexivity | reflexivity |].
  repeat constructor.
Defined.

(** X24. A catalog request answered with a status other than 200 ends the
    run: the diagnostic with that status is printed, the exit status is -1,
    and the reply is never decoded. *)
Lemma get_indexes_bad_status backend json_loads es_session es_host verbose tr r :
  backend (catalog_request es_session es_host) = Some r →
  status_code r ≠ 200 →
  get_indexes backend json_loads es_session es_host verbose tr
  = (Exit (-1),
     tr ++ [EvGet (catalog_request es_session es_host);
            EvPrint (connection_failed (status_code r))]).
Proof.
  intros Hback Hbad. apply Z.eqb_neq in Hbad.
  unfold get_indexes, mbind, session_get, print, sys_exit, catalog_request in *.
  rewrite Hback, Hbad. simpl. by rewrite <- app_assoc.
Qed.

(** An entry without a usable name makes the whole call fail. *)
Example get_indexes_malformed_entry :
  fst (get_indexes (reply_with 200 "")
         (fun _ => Some (VList [VDict [("index", VStr "nmap")]; VInt 5]))
         {| headers := ∅ |} "http://127.0.0.1:9200" false [])
  = Raise TypeError.
Proof. reflexivity. Qed.

(** ** The builders on a store *)

Module StoreFacts.
Import Store.

Section Steps.
Context {A : Type} (k : hval -> H A) (ku : unit -> H A) (h new : heap).

Lemma hbind_assoc {B} (c : H B) (f : B -> H unit) :
  hbind (hbind c f) ku h = hbind c (fun x => hbind (f x) ku) h.
Proof. unfold hbind. destruct (c h) as [[b h']| |]; reflexivity. Qed.

Lemma hbind_hret {B} (b : B) (f : B -> H A) : hbind (hret b) f h = f b h.
Proof. reflexivity. Qed.

Lemma step_new_dict items :
  hbind (new_dict items) k (h ++ new)
  = k (HRef (length h + length new)) (h ++ (new ++ [ODict items])).
Proof. unfold hbind, new_dict. by rewrite length_app, app_assoc. Qed.

Lemma step_new_list items :
  hbind (new_list items) k (h ++ new)
  = k (HRef (length h + length new)) (h ++ (new ++ [OList items])).
Proof. unfold hbind, new_list. by rewrite length_app, app_assoc. Qed.

Lemma lookup_new i : (h ++ new) !! (length h + i)%nat = new !! i.
Proof. clear. induction h as [|o h' IH]; [done | exact IH]. Qed.

Lemma insert_new i o :
  <[ (length h + i)%nat := o ]> (h ++ new) = h ++ <[ i := o ]> new.
Proof. clear. induction h as [|o' h' IH]; [done|]. simpl. by rewrite IH. Qed.

Lemma step_setitem i key v items :
  new !! i = Some (ODict items) →
  hbind (setitem (HRef (length h + i)) key v) ku (h ++ new)
  = ku tt (h ++ <[ i := ODict (dict_set key v items) ]> new).
Proof. intros Hi. unfold hbind, setitem. by rewrite lookup_new, Hi, insert_new. Qed.

Lemma step_getitem i key v items :
  new !! i = Some (ODict items) →
  dict_get key items = Some v →
  hbind (getitem (HRef (length h + i)) key) k (h ++ new) = k v (h ++ new).
Proof. intros Hi Hv. unfold hbind, getitem. by rewrite lookup_new, Hi, Hv. Qed.

Lemma step_append i x items :
  new !! i = Some (OList items) →
  hbind (append (HRef (length h + i)) x) ku (h ++ new)
  = ku tt (h ++ <[ i := OList (items ++ [x]) ]> new).
Proof. intros Hi. unfold hbind, append. by rewrite lookup_new, Hi, insert_new. Qed.

End Steps.

Ltac store_step :=
  first
    [ rewrite hbind_assoc
    | rewrite hbind_hret
    | rewrite step_new_dict
    | rewrite step_new_list
    | erewrite step_setitem by reflexivity
    | erewrite step_getitem by reflexivity
    | erewrite step_append by reflexivity ];
  cbn [length app insert list_insert].


(** Run from any store, a builder does what it does from the empty store,
    moved behind the objects that were there. *)
Lemma bldq_relocate t es_host ip_addr stime etime slimit h :
  Store.bldq t es_host ip_addr stime etime slimit h
  = relocate shift h (Store.bldq t es_host ip_addr stime etime slimit []).
Proof.
  rewrite <- (app_nil_r h) at 1.
  destruct t, ip_addr as [[|c a]|];
    unfold Store.bldq, Store.nmap_bldq, Store.httpx_bldq, Store.nuclei_bldq;
    cbn [truthy]; repeat store_step; reflexivity.
Qed.

Lemma lookup_map {X Y} (f : X → Y) (l : list X) i : map f l !! i = f <$> (l !! i).
Proof. revert i. induction l as [|x l IH]; intros [|i]; simpl; auto. Qed.

Lemma all_some_impl {X Y} (f g : X → option Y) l ys :
  (∀ x y, f x = Some y → g x = Some y) →
  all_some (map f l) = Some ys → all_some (map g l) = Some ys.
Proof.
  intros Hfg. revert ys. induction l as [|x l IH]; intros ys; simpl; [done|].
  destruct (f x) as [y|] eqn:Hx; [|done].
  destruct (all_some (map f l)) as [ys'|]; [|done].
  intros [= <-]. by rewrite (Hfg _ _ Hx), (IH _ eq_refl).
Qed.

(** Reading a relocated reference in the relocated store gives what the
    original reference gives in the original store. *)
Lemma reify_shift (h new : heap) fuel :
  ∀ v, reify fuel (h ++ map (shift_obj (length h)) new) (shift (length h) v)
       = reify fuel new v.
Proof.
  induction fuel as [|fuel IH]; intros [| | |loc]; simpl; try done.
  rewrite lookup_new, lookup_map.
  destruct (new !! loc) as [[items|items]|]; simpl; [| |done].
  - rewrite map_map. do 2 f_equal. apply map_ext. intros v. apply IH.
  - rewrite map_map. do 2 f_equal. apply map_ext. intros [key v]. simpl. by rewrite IH.
Qed.

(** What can be read stays readable, and reads the same, with more fuel and
    in a store with more objects after the existing ones. *)
Lemma reify_grow (h ext : heap) fuel :
  ∀ fuel' v doc,
    (fuel ≤ fuel')%nat →
    reify fuel h v = Some doc → reify fuel' (h ++ ext) v = Some doc.
Proof.
  induction fuel as [|fuel IH]; intros fuel' v doc Hle; destruct v as [| | |loc];
    simpl; try (destruct fuel'; simpl; done).
  destruct fuel' as [|fuel']; [lia|]. simpl.
  destruct (h !! loc) as [o|] eqn:Hloc; [|done].
  rewrite (lookup_app_l_Some _ _ _ _ Hloc).
  assert (Hle' : (fuel ≤ fuel')%nat) by lia.
  destruct o as [items|items].
  - destruct (all_some (map (reify fuel h) items)) as [ds|] eqn:Hds; simpl; [|done].
    intros [= <-].
    by rewrite (all_some_impl _ (reify fuel' (h ++ ext)) _ _
                  (fun x y => IH fuel' x y Hle') Hds).
  - destruct (all_some (map (λ kv, option_map (pair (fst kv)) (reify fuel h (snd kv)))
                            items)) as [ds|] eqn:Hds; simpl; [|done].
    intros [= <-].
    rewrite (all_some_impl
               (λ kv, option_map (pair (fst kv)) (reify fuel h (snd kv)))
               (λ kv, option_map (pair (fst kv)) (reify fuel' (h ++ ext) (snd kv)))
               items ds); [done| |exact Hds].
    intros [key v] y. simpl.
    destruct (reify fuel h v) as [d|] eqn:Hv; simpl; [|done].
    intros [= <-]. by rewrite (IH fuel' v d Hle' Hv).
Qed.

End StoreFacts.

(** From the empty store a builder returns a reference to a document whose
    contents are what the builder on values returns. *)
Lemma bldq_contents_empty t es_host ip_addr stime etime slimit :
  ∃ r new doc,
    Store.bldq t es_host ip_addr stime etime slimit [] = Ret (r, new)
    ∧ bldq t es_host ip_addr stime etime slimit = Ret doc
    ∧ Store.contents new r = Some doc.
Proof.
  destruct t, ip_addr as [[|c a]|]; do 3 eexists; (split; [reflexivity|]);
    split; reflexivity.
Qed.



(** C7. A builder is a function of its five arguments alone. On
    values, equal arguments give equal documents. On the store, whatever
    objects [h] it starts from, a call returns a reference to a document
    whose contents are the value the builder on values returns; a second
    call with the same arguments, run in the store the first one left,
    returns a document with the same contents, leaves the first document as
    it was, and both calls only add objects after the existing ones. *)
Theorem bldq_deterministic t es_host ip_addr stime etime slimit (h : list Store.obj) :
  ∃ doc r1 h1 r2 h2,
    bldq t es_host ip_addr stime etime slimit = Ret doc
    ∧ Store.bldq t es_host ip_addr stime etime slimit h = Ret (r1, h1)
    ∧ Store.bldq t es_host ip_addr stime etime slimit h1 = Ret (r2, h2)
    ∧ Store.contents h1 r1 = Some doc
    ∧ Store.contents h2 r1 = Some doc
    ∧ Store.contents h2 r2 = Some doc
    ∧ h `prefix_of` h1
    ∧ h1 `prefix_of` h2.
Proof.
  destruct (bldq_contents_empty t es_host ip_addr stime etime slimit)
    as (r0 & new & doc & Hrun & Hpure & Hdoc).
  pose proof (StoreFacts.bldq_relocate t es_host ip_addr stime etime slimit h) as Hrun1.
  rewrite Hrun in Hrun1. simpl in Hrun1.
  set (h1 := h ++ map (Store.shift_obj (length h)) new) in *.
  pose proof (StoreFacts.bldq_relocate t es_host ip_addr stime etime slimit h1) as Hrun2.
  rewrite Hrun in Hrun2. simpl in Hrun2.
  set (h2 := h1 ++ map (Store.shift_obj (length h1)) new) in *.
  assert (Hread1 : Store.reify (length new) h1 (Store.shift (length h) r0) = Some doc).
  { unfold h1. by rewrite StoreFacts.reify_shift. }
  assert (Hread2 : Store.reify (length new) h2 (Store.shift (length h1) r0) = Some doc).
  { unfold h2. by rewrite StoreFacts.reify_shift. }
  assert (Hlen1 : (length new ≤ length h1)%nat).
  { unfold h1. rewrite length_app, length_map. lia. }
  assert (Hlen2 : (length new ≤ length h2)%nat).
  { unfold h2. rewrite length_app, length_map. lia. }
  exists doc, (Store.shift (length h) r0), h1, (Store.shift (length h1) r0), h2.
  split; [exact Hpure|]. split; [exact Hrun1|]. split; [exact Hrun2|].
  unfold Store.contents. split; [|split; [|split; [|split]]].
  - rewrite <- (app_nil_r h1) at 2. by apply (StoreFacts.reify_grow _ _ (length new)).
  - unfold h2 at 2. by apply (StoreFacts.reify_grow _ _ (length new)).
  - rewrite <- (app_nil_r h2) at 2. by apply (StoreFacts.reify_grow _ _ (length new)).
  - by eexists.
  - by eexists.
Qed.

(** An [append] through one reference shows through every other one: the
    store does tell a shared list from two equal ones. *)
Example append_is_shared :
  match (Store.hbind (Store.new_list [])
           (fun l => Store.hbind (Store.new_dict [("a", l); ("b", l)])
           (fun d => Store.hbind (Store.append l (Store.HInt 1))
           (fun _ => Store.hret d)))) [] with
  | Ret (d, h) => Store.contents h d
  | _ => None
  end
  = Some (VDict [("a", VList [VInt 1]); ("b", VList [VInt 1])]).
Proof. reflexivity. Qed.

(** * Further properties *)

(** ** The builders *)

(** X1. Every builder stores under [_uri] the backend address followed by
    its tool's search path, whatever the other arguments; the httpx builder
    uses the path of the nmap index. *)
Theorem bldq_uri t es_host ip_addr stime etime slimit :
  ∃ doc,
    bldq t es_host ip_addr stime etime slimit = Ret doc
    ∧ getpath doc uri_path = Ret (VStr (es_host +:+ search_path t))
    ∧ search_path Httpx = search_path Nmap.
Proof. destruct t, ip_addr as [[|c a]|]; eexists; repeat split; reflexivity. Qed.

(** X2. The address changes nothing but the [must] array: for any two
    addresses the documents of a builder have the same [_uri], the same
    [filter] array, the same projection and the same [size]. *)
Theorem bldq_address_only_in_must t es_host ip_addr ip_addr' stime etime slimit :
  ∃ doc doc',
    bldq t es_host ip_addr stime etime slimit = Ret doc
    ∧ bldq t es_host ip_addr' stime etime slimit = Ret doc'
    ∧ Forall (fun path => getpath doc path = getpath doc' path)
             [uri_path; filter_path; includes_path; size_path].
Proof.
  destruct t, ip_addr as [[|c a]|], ip_addr' as [[|c' a']|];
    (eexists; eexists; split; [reflexivity|]; split; [reflexivity|]);
    repeat constructor.
Qed.

(** X3. The limit goes into [size] as it is, for every integer: zero and
    negative limits are not rejected and no upper bound applies. *)
Theorem bldq_size_verbatim t es_host ip_addr stime etime slimit :
  ∃ doc,
    bldq t es_host ip_addr stime etime slimit = Ret doc
    ∧ getpath doc size_path = Ret (VInt slimit).
Proof. destruct t, ip_addr as [[|c a]|]; eexists; split; reflexivity. Qed.

(** X4. The projection of every builder is fixed by the tool and holds the
    tool's time-stamp field; it holds the tool's address field for nmap and
    nuclei, and not for httpx. *)
Theorem bldq_projection t es_host ip_addr stime etime slimit :
  ∃ doc fields,
    bldq t es_host ip_addr stime etime slimit = Ret doc
    ∧ getpath doc includes_path = Ret (VList fields)
    ∧ VStr (timestamp_field t) ∈ fields
    ∧ (VStr (address_field t) ∈ fields ↔ t ≠ Httpx).
Proof.
  destruct t, ip_addr as [[|c a]|];
    (eexists; eexists; split; [reflexivity|]; split; [reflexivity|]; split;
     [repeat first [apply list_elem_of_here | apply list_elem_of_further] |]);
    (split;
     [ intros Hin; try discriminate;
       repeat (apply elem_of_cons in Hin as [Hin | Hin]; [discriminate|]);
       by apply not_elem_of_nil in Hin
     | intros Hne; try (by destruct Hne);
       repeat first [apply list_elem_of_here | apply list_elem_of_further] ]).
Qed.

(** ** The session manager *)







(** X8. Without a user name ([None] or the empty string) the password is
    never looked at: any two passwords, a missing one included, give the
    same outcome and the same events, and no [Authorization] header is
    sent. *)
Theorem init_ESsession_ignores_password_without_user backend dh user passwd passwd'
        url verbose tr :
  truthy user = false →
  init_ESsession backend dh user passwd url verbose tr
  = init_ESsession backend dh user passwd' url verbose tr
  ∧ ∃ o evs,
      init_ESsession backend dh user passwd url verbose tr = (o, tr ++ evs)
      ∧ Forall (fun e => ∀ rq, e = EvGet rq →
                  req_headers rq !! "Authorization" = dh !! "Authorization") evs.
Proof.
  intros Huser. split.
  - unfold init_ESsession. by rewrite Huser.
  - unfold init_ESsession, mbind, session_get, print, sys_exit, mret. rewrite Huser.
    destruct verbose; simpl;
      (destruct (backend _) as [r|];
       [destruct (status_code r =? 200); simpl|]);
      eexists; eexists; (split; [rewrite <- ?app_assoc; reflexivity|]);
      repeat constructor; intros rq [= <-] || (intros rq; discriminate);
      simpl; rewrite <- ?insert_union_singleton_l;
      by rewrite lookup_insert_ne by discriminate.
Qed.

Lemma init_ESsession_ignores_password_without_user_witness :
  init_ESsession (reply_with 200 "") ∅ (Some "") (Some "changeme")
                 "http://127.0.0.1:9200" false []
  = init_ESsession (reply_with 200 "") ∅ (Some "") None
                   "http://127.0.0.1:9200" false [].
Proof.
  exact (proj1 (init_ESsession_ignores_password_without_user (reply_with 200 "") ∅
                  (Some "") (Some "changeme") None "http://127.0.0.1:9200" false []
                  eq_refl)).
Defined.

(** X9. The verbose flag adds one line, printed before anything else, and
    changes nothing more: the outcome and the other events are those of the
    quiet run. *)
Theorem init_ESsession_verbose_only_prints backend dh user passwd url tr :
  ∃ o evs,
    init_ESsession backend dh user passwd url false tr = (o, tr ++ evs)
    ∧ init_ESsession backend dh user passwd url true tr
      = (o, tr ++ EvPrint ("[INFO]: Connecting to Elasticsearch: " +:+ url) :: evs).
Proof.
  unfold init_ESsession, mbind, session_get, print, sys_exit, mret, lift.
  destruct user as [[|c u]|], passwd as [pw|]; simpl;
    try (eexists; exists []; split; [by rewrite app_nil_r | reflexivity]);
    (destruct (backend _) as [r|];
     [destruct (status_code r =? 200); simpl|]);
    eexists; eexists; (split; [rewrite <- ?app_assoc; reflexivity|]);
    rewrite <- ?app_assoc; reflexivity.
Qed.

(** ** The index enumerator *)

Lemma get_indexes_bad_status_witness :
  get_indexes (reply_with 401 "") sample_json_loads {| headers := ∅ |}
              "http://127.0.0.1:9200" false []
  = (Exit (-1),
     [EvGet (catalog_request {| headers := ∅ |} "http://127.0.0.1:9200");
      EvPrint "[ERROR]: Connection failed, got 401 response!"]).
Proof.
  refine (get_indexes_bad_status (reply_with 401 "") sample_json_loads
            {| headers := ∅ |} "http://127.0.0.1:9200" false []
            {| status_code := 401; text := "" |} eq_refl _).
  simpl. discriminate.
Defined.

(** X11. A 200 reply whose text is not JSON ends [get_indexes] with the
    decoder's exception, uncaught, after the one request; nothing is
    printed. *)
Theorem get_indexes_undecodable backend json_loads es_session es_host verbose tr r :
  backend (catalog_request es_session es_host) = Some r →
  status_code r = 200 →
  json_loads (text r) = None →
  get_indexes backend json_loads es_session es_host verbose tr
  = (Raise JSONDecodeError, tr ++ [EvGet (catalog_request es_session es_host)]).
Proof.
  intros Hback Hok Hjson.
  unfold get_indexes, mbind, session_get, lift, catalog_request in *.
  by rewrite Hback, Hok, Hjson.
Qed.

Lemma get_indexes_undecodable_witness :
  get_indexes (reply_with 200 "<html>") (fun _ => None) {| headers := ∅ |}
              "http://127.0.0.1:9200" false []
  = (Raise JSONDecodeError,
     [EvGet (catalog_request {| headers := ∅ |} "http://127.0.0.1:9200")]).
Proof.
  exact (get_indexes_undecodable (reply_with 200 "<html>") (fun _ => None)
           {| headers := ∅ |} "http://127.0.0.1:9200" false []
           {| status_code := 200; text := "<html>" |} eq_refl eq_refl eq_refl).
Defined.

(** X12. A 200 reply that decodes to something other than a list: an
    empty object and an empty string give the empty list, as an empty list
    would; any other object or string, [null], a boolean or a number makes
    the loop raise [TypeError]. *)
Theorem get_indexes_not_a_list backend json_loads es_session es_host verbose tr r v :
  backend (catalog_request es_session es_host) = Some r →
  status_code r = 200 →
  json_loads (text r) = Some v →
  match v with
  | VList _ => True
  | VDict [] | VStr EmptyString =>
      get_indexes backend json_loads es_session es_host verbose tr
      = (Ret [], tr ++ [EvGet (catalog_request es_session es_host)])
  | _ =>
      get_indexes backend json_loads es_session es_host verbose tr
      = (Raise TypeError, tr ++ [EvGet (catalog_request es_session es_host)])
  end.
Proof.
  intros Hback Hok Hjson.
  unfold get_indexes, mbind, session_get, lift, catalog_request in *.
  rewrite Hback, Hok, Hjson.
  destruct v as [| | | |[|c s]| |[|[key x] items]]; reflexivity || exact I.
Qed.

Lemma get_indexes_not_a_list_witness :
  get_indexes (reply_with 200 "") (fun _ => Some (VDict [])) {| headers := ∅ |}
              "http://127.0.0.1:9200" false []
  = (Ret [], [EvGet (catalog_request {| headers := ∅ |} "http://127.0.0.1:9200")])
  ∧ get_indexes (reply_with 200 "")
                (fun _ => Some (VDict [("error", VStr "unauthorized")]))
                {| headers := ∅ |} "http://127.0.0.1:9200" false []
    = (Raise TypeError,
       [EvGet (catalog_request {| headers := ∅ |} "http://127.0.0.1:9200")]).
Proof.
  split.
  - exact (get_indexes_not_a_list (reply_with 200 "") (fun _ => Some (VDict []))
             {| headers := ∅ |} "http://127.0.0.1:9200" false []
             {| status_code := 200; text := "" |} (VDict []) eq_refl eq_refl eq_refl).
  - exact (get_indexes_not_a_list (reply_with 200 "")
             (fun _ => Some (VDict [("error", VStr "unauthorized")]))
             {| headers := ∅ |} "http://127.0.0.1:9200" false []
             {| status_code := 200; text := "" |}
             (VDict [("error", VStr "unauthorized")]) eq_refl eq_refl eq_refl).
Defined.

Lemma entry_without_defect idx :
  entry_defect idx = None → getitem idx "index" = Ret (VStr (entry_name idx)).
Proof.
  unfold entry_defect, entry_name, getitem.
  destruct idx as [| | | | | |items]; try discriminate.
  destruct (dict_get "index" items) as [[| | | |name| |]|]; try discriminate.
  reflexivity.
Qed.

Lemma index_loop_stops_at_defect good bad rest e :
  Forall (fun idx => entry_defect idx = None) good →
  entry_defect bad = Some e →
  ∀ index_arr, index_loop (good ++ bad :: rest) index_arr = Raise e.
Proof.
  intros Hgood Hbad. induction Hgood as [|idx good Hidx _ IH]; intros index_arr; simpl.
  - unfold entry_defect in Hbad. unfold getitem.
    destruct bad as [| | | | | |items]; try (by injection Hbad as <-).
    destruct (dict_get "index" items) as [[| | | |name| |]|];
      try discriminate; by injection Hbad as <-.
  - rewrite (entry_without_defect _ Hidx). simpl. apply IH.
Qed.

(** X13. The enumerator returns all the names or none: when the decoded
    list has an entry with a defect (not an object: [TypeError]; no [index]
    key: [KeyError]; a name that is not a string: [AttributeError]) after
    any number of sound entries, [get_indexes] raises that entry's exception
    and the names collected so far are lost, whatever follows the entry. *)
Theorem get_indexes_all_or_nothing backend json_loads es_session es_host verbose tr r
        good bad rest e :
  backend (catalog_request es_session es_host) = Some r →
  status_code r = 200 →
  json_loads (text r) = Some (VList (good ++ bad :: rest)) →
  Forall (fun idx => entry_defect idx = None) good →
  entry_defect bad = Some e →
  get_indexes backend json_loads es_session es_host verbose tr
  = (Raise e, tr ++ [EvGet (catalog_request es_session es_host)]).
Proof.
  intros Hback Hok Hjson Hgood Hbad.
  unfold get_indexes, mbind, session_get, lift, catalog_request in *.
  rewrite Hback, Hok, Hjson. simpl.
  by rewrite (index_loop_stops_at_defect _ _ _ _ Hgood Hbad).
Qed.

Lemma get_indexes_all_or_nothing_witness :
  get_indexes (reply_with 200 "")
              (fun _ => Some (VList ([VDict [("index", VStr "nmap")]]
                                     ++ VDict [("health", VStr "green")]
                                     :: [VDict [("index", VStr "nuclei")]])))
              {| headers := ∅ |} "http://127.0.0.1:9200" false []
  = (Raise KeyError,
     [EvGet (catalog_request {| headers := ∅ |} "http://127.0.0.1:9200")]).
Proof.
  refine (get_indexes_all_or_nothing (reply_with 200 "") _ {| headers := ∅ |}
            "http://127.0.0.1:9200" false [] {| status_code := 200; text := "" |}
            [VDict [("index", VStr "nmap")]] (VDict [("health", VStr "green")])
            [VDict [("index", VStr "nuclei")]] KeyError
            eq_refl eq_refl eq_refl _ eq_refl).
  repeat constructor.
Defined.


(** ** The dispatcher *)





(** X16. A failed probe comes first: when the backend answers the probe
    with a status other than 200, [init_sc] prints the connection
    diagnostic and exits with -1 whatever tool was requested, a tool that
    is not configured included; the unknown-tool diagnostic is not
    printed. *)
Theorem init_sc_probe_failure_first backend dh args p tr r :
  let conf := arg_config args in
  let es := elasticsearch conf in
  let rq := probe dh (es_username es) p (base_url conf) in
  (truthy (es_username es) = true → es_password es = Some p) →
  backend rq = Some r →
  status_code r ≠ 200 →
  init_sc backend dh args tr
  = (Exit (-1),
     tr ++ info_events (arg_verbose args) (base_url conf)
        ++ [EvGet rq;
            EvPrint ("[ERROR]: Connection failed, got " +:+ str_int (status_code r)
                     +:+ " response!")]).
Proof.
  intros conf es rq Hcred Hback Hbad. subst conf es rq.
  apply Z.eqb_neq in Hbad.
  rewrite (init_sc_run _ _ _ p _ r Hcred Hback), Hbad.
  by rewrite <- !app_assoc.
Qed.

Lemma init_sc_probe_failure_first_witness :
  init_sc (reply_with 401 "") ∅ (sample_args ["nmap"] "masscan") []
  = (Exit (-1),
     [EvGet (probe ∅ (Some "elastic") "changeme" "http://127.0.0.1:9200");
      EvPrint "[ERROR]: Connection failed, got 401 response!"]).
Proof.
  refine (init_sc_probe_failure_first (reply_with 401 "") ∅
            (sample_args ["nmap"] "masscan") "changeme" []
            {| status_code := 401; text := "" |} (fun _ => eq_refl) eq_refl _).
  simpl. discriminate.
Defined.


Lemma settings_is_Some args es_session k :
  is_Some (settings args es_session !! k) ↔ k ∈ settings_keys.
Proof.
  unfold settings, base_settings, settings_keys.
  rewrite !lookup_insert_is_Some', lookup_empty, !elem_of_cons, elem_of_nil.
  split.
  - intros [<-|[<-|[<-|[<-|[<-|[<-|[<-|[<-|H]]]]]]]]; [tauto..|].
    by destruct H.
  - intros [->|[->|[->|[->|[->|[->|[->|[->|[]]]]]]]]]; tauto.
Qed.

Lemma tool_name_not_setting t : tool_name t ∉ settings_keys.
Proof.
  unfold settings_keys. rewrite !elem_of_cons, elem_of_nil.
  destruct t; simpl; intros [H|[H|[H|[H|[H|[H|[H|[H|[]]]]]]]]]; discriminate.
Qed.

(** X18. The keys of the bag [init_sc] returns are the eight settings
    keys and the names of the known tools that are configured, nothing
    else: the bag of an empty tool list, or of one that names no known
    tool, has the settings only. *)
Theorem init_sc_bag_keys backend dh args p tr r :
  let conf := arg_config args in
  let es := elasticsearch conf in
  let rq := probe dh (es_username es) p (base_url conf) in
  (truthy (es_username es) = true → es_password es = Some p) →
  backend rq = Some r →
  status_code r = 200 →
  arg_tool args = "all" ∨ arg_tool args ∈ tool_list conf →
  ∃ opts,
    init_sc backend dh args tr
    = (Ret opts, tr ++ info_events (arg_verbose args) (base_url conf) ++ [EvGet rq])
    ∧ ∀ k, is_Some (opts !! k)
           ↔ k ∈ settings_keys ∨ (k ∈ tool_list conf ∧ ∃ t, k = tool_name t).
Proof.
  intros conf es rq Hcred Hback Hok Hvalid. subst conf es rq.
  destruct (init_sc_returns backend dh args p tr r Hcred Hback Hok Hvalid)
    as (opts & Hrun & Hlk).
  exists opts. split; [exact Hrun|]. intros k. rewrite Hlk.
  destruct (known_tool k) as [t|] eqn:Hk.
  - apply known_tool_Some in Hk as ->.
    destruct (query_for_Some t args) as (q & _ & Hq). rewrite Hq.
    pose proof (tool_name_not_setting t) as Hns.
    case_bool_decide as Hin; split.
    + intros _. right. split; [exact Hin | by exists t].
    + by eauto.
    + by intros [? Hnone].
    + intros [Hs | [Hin' _]]; [by destruct Hns | by destruct Hin].
  - rewrite settings_is_Some. split; [tauto|].
    intros [Hs | [_ [t ->]]]; [exact Hs|].
    by rewrite known_tool_name in Hk.
Qed.

Lemma init_sc_bag_keys_witness :
  ∃ opts,
    init_sc (reply_with 200 "") ∅ (sample_args [] "all") []
    = (Ret opts, [EvGet (probe ∅ (Some "elastic") "changeme" "http://127.0.0.1:9200")])
    ∧ ∀ k, is_Some (opts !! k)
           ↔ k ∈ settings_keys ∨ (k ∈ ([] : list string) ∧ ∃ t, k = tool_name t).
Proof.
  exact (init_sc_bag_keys (reply_with 200 "") ∅ (sample_args [] "all") "changeme" []
           {| status_code := 200; text := "" |}
           (fun _ => eq_refl) eq_refl eq_refl (or_introl eq_refl)).
Defined.

(** X19. The loop over the configured tools depends on which names are
    configured, not on their order or on repetitions: two tool lists with
    the same members give the same bag. *)
Theorem build_queries_members_only tools tools' args opts :
  (∀ name, name ∈ tools ↔ name ∈ tools') →
  build_queries tools (base_url (arg_config args)) args opts
  = build_queries tools' (base_url (arg_config args)) args opts.
Proof.
  intros Hsame.
  destruct (build_queries_lookup tools args opts) as (o & -> & Hlk).
  destruct (build_queries_lookup tools' args opts) as (o' & -> & Hlk').
  f_equal. apply map_eq. intros k. rewrite Hlk, Hlk'.
  destruct (known_tool k); [|done].
  by rewrite (bool_decide_ext _ _ (Hsame k)).
Qed.

Lemma build_queries_members_only_witness :
  build_queries ["nmap"; "httpx"; "nmap"] "http://127.0.0.1:9200"
                (sample_args [] "all") ∅
  = build_queries ["httpx"; "nmap"] "http://127.0.0.1:9200" (sample_args [] "all") ∅.
Proof.
  refine (build_queries_members_only ["nmap"; "httpx"; "nmap"] ["httpx"; "nmap"]
            (sample_args [] "all") ∅ _).
  intros name. rewrite !elem_of_cons, elem_of_nil. tauto.
Defined.

(** X20. The requested tool selects nothing: two runs that differ only in
    the requested tool, both passing validation, make the same events and
    return bags that agree under every key but [tool]. *)
Theorem init_sc_requested_tool_only_recorded backend dh args requested requested'
        p tr r :
  let conf := arg_config args in
  let es := elasticsearch conf in
  let rq := probe dh (es_username es) p (base_url conf) in
  (truthy (es_username es) = true → es_password es = Some p) →
  backend rq = Some r →
  status_code r = 200 →
  requested = "all" ∨ requested ∈ tool_list conf →
  requested' = "all" ∨ requested' ∈ tool_list conf →
  ∃ opts opts' tr',
    init_sc backend dh (with_tool args requested) tr = (Ret opts, tr')
    ∧ init_sc backend dh (with_tool args requested') tr = (Ret opts', tr')
    ∧ ∀ k, k ≠ "tool" → opts !! k = opts' !! k.
Proof.
  intros conf es rq Hcred Hback Hok Hvalid Hvalid'. subst conf es rq.
  destruct (init_sc_returns backend dh (with_tool args requested) p tr r
              Hcred Hback Hok Hvalid) as (opts & Hrun & Hlk).
  destruct (init_sc_returns backend dh (with_tool args requested') p tr r
              Hcred Hback Hok Hvalid') as (opts' & Hrun' & Hlk').
  exists opts, opts'. eexists. split; [exact Hrun|]. split; [exact Hrun'|].
  intros k Hk. rewrite Hlk, Hlk'. simpl.
  destruct (known_tool k); [reflexivity|].
  unfold settings, base_settings. simpl.
  rewrite !lookup_insert. repeat case_decide; congruence.
Qed.

Lemma init_sc_requested_tool_only_recorded_witness :
  ∃ opts opts' tr',
    init_sc (reply_with 200 "") ∅ (with_tool (sample_args ["nmap"; "httpx"] "all") "nmap") []
    = (Ret opts, tr')
    ∧ init_sc (reply_with 200 "") ∅
              (with_tool (sample_args ["nmap"; "httpx"] "all") "httpx") []
      = (Ret opts', tr')
    ∧ ∀ k, k ≠ "tool" → opts !! k = opts' !! k.
Proof.
  exact (init_sc_requested_tool_only_recorded (reply_with 200 "") ∅
           (sample_args ["nmap"; "httpx"] "all") "nmap" "httpx" "changeme" []
           {| status_code := 200; text := "" |}
           (fun _ => eq_refl) eq_refl eq_refl
           (or_intror (list_elem_of_here "nmap" ["httpx"]))
           (or_intror (list_elem_of_further "httpx" "nmap" ["httpx"]
                         (list_elem_of_here "httpx" [])))).
Defined.

(** X21. The address the bag records under [es_host] is the one every
    built query goes to: the scheme chosen by the [ssl] flag, the host and
    the port of the configuration, followed in each query's [_uri] by the
    tool's search path. *)
Theorem init_sc_queries_use_es_host backend dh args p tr r :
  let conf := arg_config args in
  let es := elasticsearch conf in
  let rq := probe dh (es_username es) p (base_url conf) in
  (truthy (es_username es) = true → es_password es = Some p) →
  backend rq = Some r →
  status_code r = 200 →
  arg_tool args = "all" ∨ arg_tool args ∈ tool_list conf →
  ∃ opts es_host,
    init_sc backend dh args tr
    = (Ret opts, tr ++ info_events (arg_verbose args) (base_url conf) ++ [EvGet rq])
    ∧ es_host = (if es_ssl es then "https://" else "http://")
                +:+ es_ip es +:+ ":" +:+ str_int (es_port es)
    ∧ opts !! "es_host" = Some (OVal (VStr es_host))
    ∧ ∀ t, tool_name t ∈ tool_list conf →
           ∃ q, opts !! tool_name t = Some (OVal q)
                ∧ getpath q uri_path = Ret (VStr (es_host +:+ search_path t)).
Proof.
  intros conf es rq Hcred Hback Hok Hvalid. subst conf es rq.
  destruct (init_sc_returns backend dh args p tr r Hcred Hback Hok Hvalid)
    as (opts & Hrun & Hlk).
  exists opts, (base_url (arg_config args)).
  split; [exact Hrun|]. split; [reflexivity|]. split.
  - rewrite Hlk. simpl. unfold settings, base_settings.
    rewrite !lookup_insert_ne by discriminate. apply lookup_insert_eq.
  - intros t Hin.
    destruct (bldq_uri t (base_url (arg_config args)) (arg_addr args) (arg_start args)
                (arg_end args) (arg_limit args)) as (q & Hq & Huri & _).
    exists q. split; [|exact Huri].
    rewrite Hlk, known_tool_name, (bool_decide_eq_true_2 _ Hin).
    unfold query_for. by rewrite Hq.
Qed.

Lemma init_sc_queries_use_es_host_witness :
  ∃ opts q,
    init_sc (reply_with 200 "") ∅ (sample_args ["httpx"] "all") []
    = (Ret opts, [EvGet (probe ∅ (Some "elastic") "changeme" "http://127.0.0.1:9200")])
    ∧ opts !! "es_host" = Some (OVal (VStr "http://127.0.0.1:9200"))
    ∧ opts !! "httpx" = Some (OVal q)
    ∧ getpath q uri_path
      = Ret (VStr "http://127.0.0.1:9200/nmap/_search?filter_path=hits.hits._source").
Proof.
  destruct (init_sc_queries_use_es_host (reply_with 200 "") ∅
              (sample_args ["httpx"] "all") "changeme" []
              {| status_code := 200; text := "" |}
              (fun _ => eq_refl) eq_refl eq_refl (or_introl eq_refl))
    as (opts & es_host & Hrun & -> & Hhost & Hqueries).
  destruct (Hqueries Httpx (list_elem_of_here "httpx" [])) as (q & Hq & Huri).
  exists opts, q. split; [exact Hrun|]. split; [exact Hhost|]. split; [exact Hq|].
  exact Huri.
Defined.

(** X22. The returned bag carries the credentials: the configured user
    name and password as they are under [es_user] and [es_pass], and under
    [es_session] the session, whose [Authorization] header holds them when
    the user name is not empty. *)
Theorem init_sc_bag_carries_credentials backend dh args p tr r :
  let conf := arg_config args in
  let es := elasticsearch conf in
  let rq := probe dh (es_username es) p (base_url conf) in
  (truthy (es_username es) = true → es_password es = Some p) →
  backend rq = Some r →
  status_code r = 200 →
  arg_tool args = "all" ∨ arg_tool args ∈ tool_list conf →
  ∃ opts session,
    init_sc backend dh args tr
    = (Ret opts, tr ++ info_events (arg_verbose args) (base_url conf) ++ [EvGet rq])
    ∧ opts !! "es_user" = Some (OVal (opt_value (es_username es)))
    ∧ opts !! "es_pass" = Some (OVal (opt_value (es_password es)))
    ∧ opts !! "es_session" = Some (OSession session)
    ∧ req_headers rq = headers session
    ∧ (∀ u, es_username es = Some u → u ≠ "" →
          headers session !! "Authorization"
          = Some ("Basic " +:+ b64encode (u +:+ ":" +:+ p))).
Proof.
  intros conf es rq Hcred Hback Hok Hvalid. subst conf es rq.
  destruct (init_sc_returns backend dh args p tr r Hcred Hback Hok Hvalid)
    as (opts & Hrun & Hlk).
  exists opts. eexists. split; [exact Hrun|].
  repeat split.
  - rewrite Hlk. simpl. unfold settings, base_settings.
    rewrite !lookup_insert_ne by discriminate. apply lookup_insert_eq.
  - rewrite Hlk. simpl. unfold settings, base_settings.
    rewrite !lookup_insert_ne by discriminate. apply lookup_insert_eq.
  - rewrite Hlk. simpl. unfold settings, base_settings.
    rewrite !lookup_insert_ne by discriminate. apply lookup_insert_eq.
  - reflexivity.
  - intros u Hu Hne. simpl. unfold session_headers. rewrite Hu.
    destruct u as [|c u]; [done|]. simpl. apply lookup_insert_eq.
Qed.

Lemma init_sc_bag_carries_credentials_witness :
  ∃ opts session,
    init_sc (reply_with 200 "") ∅ (sample_args ["nmap"] "all") []
    = (Ret opts, [EvGet (probe ∅ (Some "elastic") "changeme" "http://127.0.0.1:9200")])
    ∧ opts !! "es_pass" = Some (OVal (VStr "changeme"))
    ∧ opts !! "es_session" = Some (OSession session)
    ∧ headers session !! "Authorization" = Some "Basic ZWxhc3RpYzpjaGFuZ2VtZQ==".
Proof.
  destruct (init_sc_bag_carries_credentials (reply_with 200 "") ∅
              (sample_args ["nmap"] "all") "changeme" []
              {| status_code := 200; text := "" |}
              (fun _ => eq_refl) eq_refl eq_refl (or_introl eq_refl))
    as (opts & session & Hrun & _ & Hpass & Hsession & _ & Hauth).
  exists opts, session. split; [exact Hrun|]. split; [exact Hpass|].
  split; [exact Hsession|].
  exact (Hauth "elastic" eq_refl ltac:(discriminate)).
Defined.

(** X23. A run with the defaults of [main]'s argument parser (only the
    configuration file given) always passes tool validation: once the probe
    is answered with 200 it returns, and the query of every configured known
    tool has no address clause, covers the last 24 hours and asks for 100
    results. *)
Theorem default_invocation backend dh conf config_name p tr r :
  let es := elasticsearch conf in
  let rq := probe dh (es_username es) p (base_url conf) in
  (truthy (es_username es) = true → es_password es = Some p) →
  backend rq = Some r →
  status_code r = 200 →
  ∃ opts,
    init_sc backend dh (default_args conf config_name) tr = (Ret opts, tr ++ [EvGet rq])
    ∧ ∀ t, tool_name t ∈ tool_list conf →
           ∃ q clauses,
             opts !! tool_name t = Some (OVal q)
             ∧ getpath q must_path = Ret (VList (fixed_must t))
             ∧ getpath q filter_path = Ret (VList clauses)
             ∧ VDict [("range", VDict [(timestamp_field t,
                          VDict [("gte", VStr "now-24h"); ("lte", VStr "now")])])]
               ∈ clauses
             ∧ getpath q size_path = Ret (VInt 100).
Proof.
  intros es rq Hcred Hback Hok. subst es rq.
  destruct (init_sc_returns backend dh (default_args conf config_name) p tr r
              Hcred Hback Hok (or_introl eq_refl)) as (opts & Hrun & Hlk).
  exists opts. split; [exact Hrun|]. intros t Hin.
  assert (Hq : opts !! tool_name t = query_for t (default_args conf config_name)).
  { rewrite Hlk, known_tool_name. simpl. by rewrite (bool_decide_eq_true_2 _ Hin). }
  rewrite Hq.
  destruct t; (eexists; eexists; split; [reflexivity|]; split; [reflexivity|];
               split; [reflexivity|]; split; [|reflexivity]);
    repeat first [apply list_elem_of_here | apply list_elem_of_further].
Qed.

Lemma default_invocation_witness :
  ∃ opts q,
    init_sc (reply_with 200 "") ∅
            (default_args {| elasticsearch := sample_es; tool_list := ["nuclei"] |}
                          "conf/santacruz.yml") []
    = (Ret opts, [EvGet (probe ∅ (Some "elastic") "changeme" "http://127.0.0.1:9200")])
    ∧ opts !! "nuclei" = Some (OVal q)
    ∧ getpath q must_path = Ret (VList [])
    ∧ getpath q size_path = Ret (VInt 100).
Proof.
  destruct (default_invocation (reply_with 200 "") ∅
              {| elasticsearch := sample_es; tool_list := ["nuclei"] |}
              "conf/santacruz.yml" "changeme" []
              {| status_code := 200; text := "" |}
              (fun _ => eq_refl) eq_refl eq_refl)
    as (opts & Hrun & Hqueries).
  destruct (Hqueries Nuclei (list_elem_of_here "nuclei" []))
    as (q & clauses & Hq & Hmust & _ & _ & Hsize).
  exists opts, q. split; [exact Hrun|]. split; [exact Hq|]. split; [exact Hmust|].
  exact Hsize.
Defined.
